(** * Tooltip (src/components/Tooltip.tsx): a shallow embedding

    The component is a class with a React state record, one instance field
    holding a timer handle ([_longPressTimeout]), one holding the child
    reference ([_children]), three touch handlers, a layout handler, two
    lifecycle hooks, four geometry methods and [render].

    Modelling choices, all documented where they are made:
    - JavaScript numbers are IEEE 754 binary64 values, the primitive
      [float] of the Standard Library: [+], [-], [/] round as the code's
      do, and [<], [>] are false when an operand is NaN;
    - time is counted in milliseconds ([nat]); the host's timer queue is an
      explicit list and [setTimeout]/[clearTimeout] act on it;
    - [this.setState] is applied at once while the component is mounted:
      the update requested by the code is performed before the next event
      is handled; on a component that is not mounted React drops it;
    - JavaScript objects used as property bags are [gmap string propval]. *)

From Stdlib Require Import ZArith Lia List Bool Floats.
From stdpp Require Import base strings gmap.

Set Warnings "-inexact-float".

Local Open Scope float_scope.

(** * Part I: the embedding *)

(** ** Numbers *)

(** [a > b] and [a < b] on JavaScript numbers: the IEEE comparisons,
    false as soon as one side is NaN. *)
Definition num_gt (a b : float) : bool := b <? a.
Definition num_lt (a b : float) : bool := a <? b.

(** ** The React state of the component (type [State], lines 46-60) *)

Record ChildrenLayout := mkChildrenLayout {
  cl_x : float;
  cl_y : float;
  cl_width : float;
  cl_height : float
}.

Record TooltipLayout := mkTooltipLayout {
  tl_width : float;
  tl_height : float
}.

Record State := mkState {
  childrenLayout : ChildrenLayout;
  tooltipLayout : TooltipLayout;
  tooltipVisible : bool;
  tooltipOpacity : float;
  tooltipMeasured : bool
}.

(** The initial value of [state] (lines 89-103). *)
Definition initialState : State :=
  {| childrenLayout := mkChildrenLayout 0 0 0 0;
     tooltipLayout := mkTooltipLayout 0 0;
     tooltipVisible := false;
     tooltipOpacity := 0;
     tooltipMeasured := false |}.

(** What [Dimensions.get('window')] returns. *)
Record Window := mkWindow {
  win_width : float;
  win_height : float
}.

(** [styles.tooltip.marginTop] (line 317). *)
Definition tooltip_marginTop : float := 24.

(** ** Position calculator (lines 202-268) *)

Section Position.

(** [APPROX_STATUSBAR_HEIGHT] is imported from [../constants], which is not
    part of the sources at hand: it is a parameter here. *)
Variable APPROX_STATUSBAR_HEIGHT : float.

Definition _overflowLeft (centerDistanceFromChildren : float) : bool :=
  num_lt centerDistanceFromChildren 0.

Definition _overflowRight (st : State) (win : Window)
    (centerDistanceFromChildren : float) : bool :=
  let tooltipWidth := tl_width (tooltipLayout st) in
  let layoutWidth := win_width win in
  num_gt (centerDistanceFromChildren + tooltipWidth) layoutWidth.

Definition _overflowBottom (st : State) (win : Window) : bool :=
  let childrenY := cl_y (childrenLayout st) in
  let childrenHeight := cl_height (childrenLayout st) in
  let tooltipHeight := tl_height (tooltipLayout st) in
  let layoutHeight := win_height win in
  num_gt (childrenY + childrenHeight + tooltipHeight + APPROX_STATUSBAR_HEIGHT)
         layoutHeight.

(** [childrenX + (childrenWidth - tooltipWidth) / 2] (lines 236-237). *)
Definition centerDistanceFromChildren (st : State) : float :=
  let childrenX := cl_x (childrenLayout st) in
  let childrenWidth := cl_width (childrenLayout st) in
  let tooltipWidth := tl_width (tooltipLayout st) in
  childrenX + (childrenWidth - tooltipWidth) / 2.

Definition _getTooltipXPosition (st : State) (win : Window) : float :=
  let childrenX := cl_x (childrenLayout st) in
  let childrenWidth := cl_width (childrenLayout st) in
  let tooltipWidth := tl_width (tooltipLayout st) in
  let center := centerDistanceFromChildren st in
  if _overflowRight st win center then
    childrenX + childrenWidth - tooltipWidth
  else if _overflowLeft center then
    childrenX
  else
    center.

Definition _getTooltipYPosition (st : State) (win : Window) : float :=
  let childrenY := cl_y (childrenLayout st) in
  let tooltipHeight := tl_height (tooltipLayout st) in
  if _overflowBottom st win then
    childrenY - tooltipHeight - tooltip_marginTop - APPROX_STATUSBAR_HEIGHT
  else
    childrenY + tooltipHeight.

End Position.

(** A state with the two rectangles given, as it is while the tooltip is
    shown; the geometry reads nothing but the two rectangles. *)
Definition rects (cx cy cw ch tw th : float) : State :=
  {| childrenLayout := mkChildrenLayout cx cy cw ch;
     tooltipLayout := mkTooltipLayout tw th;
     tooltipVisible := true;
     tooltipOpacity := 0.9;
     tooltipMeasured := true |}.

(** The tooltip rectangle placed at the computed position lies inside the
    window: its four edges against the four bounds. *)
Definition inside_window (sb : float) (st : State) (win : Window) : Prop :=
  let left := _getTooltipXPosition st win in
  let top := _getTooltipYPosition sb st win in
  (0 <=? left) = true /\
  (left + tl_width (tooltipLayout st) <=? win_width win) = true /\
  (0 <=? top) = true /\
  (top + tl_height (tooltipLayout st) <=? win_height win) = true.

Local Close Scope float_scope.

(** ** The host: timers, listeners, measurement *)

(** The three closures the component hands to [setTimeout]. *)
Inductive callback :=
| ShowTooltip
    (* () => { this._showTooltip(); }                     lines 182-184 *)
| HideTooltipIf (tooltipVisible : bool)
    (* () => { tooltipVisible && this._hideTooltip(); }   lines 192-194;
       [tooltipVisible] is the constant read at line 189 *)
| MeasureChildren (target : nat).
    (* () => { UIManager.measure(target, ...); }          lines 129-150 *)

Record timer := mkTimer {
  timer_id : nat;
  timer_due : nat;
  timer_cb : callback
}.

(** The only function the component registers with [Dimensions]. *)
Inductive listener := SetChildrenPosition.

(** What the ref callback receives; [nodeHandle] is what [findNodeHandle]
    answers for it ([null] is [None]). *)
Record ChildRef := mkChildRef { nodeHandle : option nat }.

Definition findNodeHandle (element : ChildRef) : option nat :=
  nodeHandle element.

(** The component instance together with the part of the host it talks
    to. [mounted] is React's: set around the two lifecycle hooks and read
    by [setState] only. *)
Record Component := mkComponent {
  state : State;
  _longPressTimeout : option nat;
  _children : option ChildRef;
  mounted : bool;
  clock : nat;
  timers : list timer;
  nextTimerId : nat;
  changeListeners : list listener;
  measuring : list nat;
  window : Window
}.

Definition initial (win : Window) : Component :=
  {| state := initialState;
     _longPressTimeout := None;
     _children := None;
     mounted := false;
     clock := 0;
     timers := [];
     nextTimerId := 1;
     changeListeners := [];
     measuring := [];
     window := win |}.

Definition with_state (s : State) (c : Component) : Component :=
  mkComponent s (_longPressTimeout c) (_children c) (mounted c) (clock c)
    (timers c) (nextTimerId c) (changeListeners c) (measuring c) (window c).

Definition with_longPressTimeout (h : option nat) (c : Component) : Component :=
  mkComponent (state c) h (_children c) (mounted c) (clock c)
    (timers c) (nextTimerId c) (changeListeners c) (measuring c) (window c).

Definition with_children (r : option ChildRef) (c : Component) : Component :=
  mkComponent (state c) (_longPressTimeout c) r (mounted c) (clock c)
    (timers c) (nextTimerId c) (changeListeners c) (measuring c) (window c).

Definition with_mounted (b : bool) (c : Component) : Component :=
  mkComponent (state c) (_longPressTimeout c) (_children c) b (clock c)
    (timers c) (nextTimerId c) (changeListeners c) (measuring c) (window c).

Definition with_clock (t : nat) (c : Component) : Component :=
  mkComponent (state c) (_longPressTimeout c) (_children c) (mounted c) t
    (timers c) (nextTimerId c) (changeListeners c) (measuring c) (window c).

Definition with_timers (ts : list timer) (c : Component) : Component :=
  mkComponent (state c) (_longPressTimeout c) (_children c) (mounted c) (clock c)
    ts (nextTimerId c) (changeListeners c) (measuring c) (window c).

Definition with_nextTimerId (n : nat) (c : Component) : Component :=
  mkComponent (state c) (_longPressTimeout c) (_children c) (mounted c) (clock c)
    (timers c) n (changeListeners c) (measuring c) (window c).

Definition with_changeListeners (ls : list listener) (c : Component) : Component :=
  mkComponent (state c) (_longPressTimeout c) (_children c) (mounted c) (clock c)
    (timers c) (nextTimerId c) ls (measuring c) (window c).

Definition with_measuring (ms : list nat) (c : Component) : Component :=
  mkComponent (state c) (_longPressTimeout c) (_children c) (mounted c) (clock c)
    (timers c) (nextTimerId c) (changeListeners c) ms (window c).

Definition with_window (w : Window) (c : Component) : Component :=
  mkComponent (state c) (_longPressTimeout c) (_children c) (mounted c) (clock c)
    (timers c) (nextTimerId c) (changeListeners c) (measuring c) w.

(** [setTimeout(cb, delay)]: a fresh handle, due [delay] ms from now. *)
Definition setTimeout (cb : callback) (delay : nat) (c : Component)
    : Component * nat :=
  let id := nextTimerId c in
  (with_nextTimerId (S id)
     (with_timers (timers c ++ [mkTimer id (clock c + delay) cb]) c),
   id).

(** [clearTimeout(handle)]: [undefined] and stale handles cancel nothing. *)
Definition clearTimeout (handle : option nat) (c : Component) : Component :=
  match handle with
  | None => c
  | Some id =>
      with_timers
        (List.filter (fun t => negb (Nat.eqb (timer_id t) id)) (timers c)) c
  end.

(** [Dimensions.addEventListener('change', l)] and its inverse. *)
Definition addEventListener (l : listener) (c : Component) : Component :=
  with_changeListeners (changeListeners c ++ [l]) c.

Definition listener_eqb (a b : listener) : bool :=
  match a, b with
  | SetChildrenPosition, SetChildrenPosition => true
  end.

Fixpoint remove_first (l : listener) (ls : list listener) : list listener :=
  match ls with
  | [] => []
  | l' :: ls' => if listener_eqb l l' then ls' else l' :: remove_first l ls'
  end.

Definition removeEventListener (l : listener) (c : Component) : Component :=
  with_changeListeners (remove_first l (changeListeners c)) c.

(** ** The component's methods *)

(** [this.setState(partial)]. React applies the update to a mounted
    component and drops it otherwise. *)
Definition setState (f : State -> State) (c : Component) : Component :=
  if mounted c then with_state (f (state c)) c else c.

Definition set_tooltipVisible (b : bool) (s : State) : State :=
  mkState (childrenLayout s) (tooltipLayout s) b (tooltipOpacity s)
    (tooltipMeasured s).

Definition set_childrenLayout (l : ChildrenLayout) (s : State) : State :=
  mkState l (tooltipLayout s) (tooltipVisible s) (tooltipOpacity s)
    (tooltipMeasured s).

(** Lines 167-173. *)
Definition _showTooltip (c : Component) : Component :=
  setState (set_tooltipVisible true) c.

Definition _hideTooltip (c : Component) : Component :=
  setState (set_tooltipVisible false) c.

(** Lines 175-177. *)
Definition _clearTimeouts (c : Component) : Component :=
  clearTimeout (_longPressTimeout c) c.

(** Lines 117-119. *)
Definition _setChildrenRef (element : option ChildRef) (c : Component)
    : Component :=
  with_children element c.

(** Lines 121-151. A handle of [0] is falsy, like [null]; the handle of the
    measurement timer is dropped. *)
Definition _setChildrenPosition (c : Component) : Component :=
  match _children c with
  | None => c
  | Some element =>
      match findNodeHandle element with
      | None => c
      | Some O => c
      | Some (S _ as target) => fst (setTimeout (MeasureChildren target) 500 c)
      end
  end.

(** The callback given to [UIManager.measure] (lines 132-148). *)
Definition measureCallback (width height pageX pageY : float) (c : Component)
    : Component :=
  setState (set_childrenLayout (mkChildrenLayout pageX pageY width height)) c.

(** Lines 153-165. *)
Definition _handleTooltipLayout (width height : float) (c : Component)
    : Component :=
  if negb (tooltipMeasured (state c)) then
    setState (fun s =>
      mkState (childrenLayout s) (mkTooltipLayout width height)
        (tooltipVisible s) 0.9%float true) c
  else c.

Section Handlers.

(** [this.props.delayLongPress], 500 unless the parent passes another
    value ([defaultProps], line 87). *)
Variable delayLongPress : nat.

(** Lines 179-185. *)
Definition _handleTouchStart (c : Component) : Component :=
  let '(c1, id) := setTimeout ShowTooltip delayLongPress c in
  with_longPressTimeout (Some id) c1.

(** Lines 187-195. *)
Definition _handleTouchEndCapture (c : Component) : Component :=
  let tooltipVisible := tooltipVisible (state c) in
  let c1 := _clearTimeouts c in
  let '(c2, id) := setTimeout (HideTooltipIf tooltipVisible) delayLongPress c1 in
  with_longPressTimeout (Some id) c2.

(** Lines 197-200. *)
Definition _handleTouchCancel (c : Component) : Component :=
  _hideTooltip (_clearTimeouts c).

(** Lines 105-109. *)
Definition componentDidMount (c : Component) : Component :=
  _setChildrenPosition (addEventListener SetChildrenPosition (with_mounted true c)).

(** Lines 111-115. *)
Definition componentWillUnmount (c : Component) : Component :=
  with_mounted false
    (_clearTimeouts (removeEventListener SetChildrenPosition c)).

(** ** The event loop *)

(** Running a timer's closure. [UIManager.measure] answers later, through
    its callback: the request is queued in [measuring]. *)
Definition run_callback (cb : callback) (c : Component) : Component :=
  match cb with
  | ShowTooltip => _showTooltip c
  | HideTooltipIf tooltipVisible =>
      if tooltipVisible then _hideTooltip c else c
  | MeasureChildren target => with_measuring (measuring c ++ [target]) c
  end.

(** The timer that is due first, and the queue without it; among timers
    due at the same instant the one set first goes first. *)
Fixpoint pop_earliest (ts : list timer) : option (timer * list timer) :=
  match ts with
  | [] => None
  | t :: ts' =>
      match pop_earliest ts' with
      | None => Some (t, [])
      | Some (u, rest) =>
          if Nat.leb (timer_due t) (timer_due u) then Some (t, ts')
          else Some (u, t :: rest)
      end
  end.

Definition fire (t : timer) (rest : list timer) (c : Component) : Component :=
  run_callback (timer_cb t)
    (with_clock (Nat.max (clock c) (timer_due t)) (with_timers rest c)).

(** Fire, in order, the timers due by [deadline]. No closure of this
    component sets a timer, so [length (timers c)] rounds are enough
    ([run_timers_complete] below). *)
Fixpoint run_timers (fuel deadline : nat) (c : Component) : Component :=
  match fuel with
  | O => c
  | S fuel' =>
      match pop_earliest (timers c) with
      | None => c
      | Some (t, rest) =>
          if Nat.leb (timer_due t) deadline
          then run_timers fuel' deadline (fire t rest c)
          else c
      end
  end.

Definition elapse (ms : nat) (c : Component) : Component :=
  let deadline := clock c + ms in
  with_clock deadline (run_timers (length (timers c)) deadline c).

(** What can happen to a component. *)
Inductive event :=
| RefSet (element : option ChildRef)   (* React calls [_setChildrenRef] *)
| DidMount
| WillUnmount
| DimensionsChange (win : Window)
| TouchStart
| TouchEndCapture
| TouchCancel
| Layout (width height : float)            (* [onLayout] of the tooltip view *)
| Measured (width height pageX pageY : float)
                                       (* [UIManager.measure] answers *)
| Elapse (ms : nat).

Definition call_listener (l : listener) (c : Component) : Component :=
  match l with
  | SetChildrenPosition => _setChildrenPosition c
  end.

Definition step (c : Component) (e : event) : Component :=
  match e with
  | RefSet element => _setChildrenRef element c
  | DidMount => componentDidMount c
  | WillUnmount => componentWillUnmount c
  | DimensionsChange win =>
      let c1 := with_window win c in
      fold_left (fun acc l => call_listener l acc) (changeListeners c1) c1
  | TouchStart => _handleTouchStart c
  | TouchEndCapture => _handleTouchEndCapture c
  | TouchCancel => _handleTouchCancel c
  | Layout width height => _handleTooltipLayout width height c
  | Measured width height pageX pageY =>
      match measuring c with
      | [] => c
      | _ :: pending =>
          measureCallback width height pageX pageY (with_measuring pending c)
      end
  | Elapse ms => elapse ms c
  end.

Definition run (es : list event) (c : Component) : Component :=
  fold_left step es c.

(** The component after each event of [es], in order. *)
Fixpoint trace (es : list event) (c : Component) : list Component :=
  match es with
  | [] => []
  | e :: es' => step c e :: trace es' (step c e)
  end.

End Handlers.

(** ** Observations on the timer queue *)

Definition is_longPress (cb : callback) : bool :=
  match cb with
  | ShowTooltip | HideTooltipIf _ => true
  | MeasureChildren _ => false
  end.

(** The show/hide timers that are pending. *)
Definition pendingLongPress (c : Component) : list timer :=
  List.filter (fun t => is_longPress (timer_cb t)) (timers c).

Definition visible (c : Component) : bool := tooltipVisible (state c).

Definition is_Layout (e : event) : bool :=
  match e with Layout _ _ => true | _ => false end.

Definition is_TouchStart (e : event) : bool :=
  match e with TouchStart => true | _ => false end.

(** The time an event takes, and the time a list of events takes. *)
Definition wait_of (e : event) : nat :=
  match e with Elapse ms => ms | _ => 0 end.

Definition waits (es : list event) : nat :=
  fold_right (fun e n => wait_of e + n) 0 es.

(** A component freshly mounted on a child whose native handle is 7. *)
Definition mountedOn (delay : nat) (win : Window) : Component :=
  run delay [RefSet (Some (mkChildRef (Some 7%nat))); DidMount] (initial win).

(** ** Further observations *)

(** The measured flag. *)
Definition measured (c : Component) : bool := tooltipMeasured (state c).

(** The show timers that are pending. *)
Definition is_show (cb : callback) : bool :=
  match cb with ShowTooltip => true | _ => false end.

Definition pendingBy (f : callback -> bool) (c : Component) : list timer :=
  List.filter (fun t => f (timer_cb t)) (timers c).

Definition showPending (c : Component) : list timer := pendingBy is_show c.

(** What a timer's closure does to the visibility. *)
Definition after_callback (cb : callback) (v : bool) : bool :=
  match cb with
  | ShowTooltip => true
  | HideTooltipIf captured => if captured then false else v
  | MeasureChildren _ => v
  end.

(** Between a touch start and its cancel. [handle] and [due] are the handle
    and the due time of the show timer the touch start sets: the tooltip is
    hidden, and every show timer pending is that one, not due before [due]
    and still named by [_longPressTimeout]. *)
Definition armed (handle due : nat) (c : Component) : Prop :=
  visible c = false /\
  forall t, In t (timers c) -> is_show (timer_cb t) = true ->
            timer_id t = handle /\ due <= timer_due t /\
            _longPressTimeout c = Some handle.

(** ** Sample data *)

Definition win0 : Window := mkWindow 400 800.

(** ** [render] (lines 270-310) *)

(** Values found in a property bag. Functions are told apart by identity. *)
Inductive propval :=
| PString (s : string)
| PNumber (n : float)
| POpaque (tag : nat)     (* a style, the theme, any other object *)
| PFunction (f : nat)     (* a function supplied by the consumer *)
| PNoop                   (* the arrow function [() => {}] of line 303 *)
| PSetChildrenRef.        (* [this._setChildrenRef], line 305 *)

(** A React element: its own properties, its [ref] and its [key]. *)
Record element := mkElement {
  el_type : string;
  el_props : gmap string propval;
  el_ref : option propval;
  el_key : option propval
}.

(** [this.props]: [children], and every other own property by name. *)
Record Props := mkProps {
  children : list element;
  attrs : gmap string propval
}.

(** [React.Children.only]: the single child, or an exception ([None]). *)
Definition Children_only (children : list element) : option element :=
  match children with
  | [e] => Some e
  | _ => None
  end.

(** The [...rest] of the destructuring at line 271. *)
Definition rest_of (p : Props) : gmap string propval :=
  delete "title" (delete "wrapperStyle" (delete "style" (delete "theme" (attrs p)))).

(** [{ ...o }] inside an object literal: the entries of [o] are written
    over what the literal holds so far. *)
Definition spread (o sofar : gmap string propval) : gmap string propval :=
  o ∪ sofar.

(** The object literal of lines 302-306, built entry by entry. *)
Definition cloneConfig (rest : gmap string propval) : gmap string propval :=
  <["ref" := PSetChildrenRef]> (spread rest (<["onLongPress" := PNoop]> ∅)).

(** [React.cloneElement(element, config)]: the entries of [config] are
    written over the element's own; [ref] and [key] are not properties. *)
Definition cloneElement (e : element) (config : gmap string propval) : element :=
  {| el_type := el_type e;
     el_props := delete "ref" (delete "key" config) ∪ el_props e;
     el_ref := match config !! "ref" with Some r => Some r | None => el_ref e end;
     el_key := match config !! "key" with Some k => Some k | None => el_key e end |}.

(** The overlay's own style entry (lines 283-288). *)
Record Overlay := mkOverlay {
  ov_opacity : float;
  ov_left : float;
  ov_top : float
}.

Record Rendered := mkRendered {
  r_overlay : option Overlay;
  r_child : element
}.

Definition render (sb : float) (p : Props) (st : State) (win : Window)
    : option Rendered :=
  match Children_only (children p) with
  | None => None
  | Some childElement =>
      Some {| r_overlay :=
                if tooltipVisible st then
                  Some (mkOverlay (tooltipOpacity st)
                          (_getTooltipXPosition st win)
                          (_getTooltipYPosition sb st win))
                else None;
              r_child := cloneElement childElement (cloneConfig (rest_of p)) |}
  end.

(** The [onLongPress] the child finally receives. *)
Definition child_onLongPress (r : Rendered) : option propval :=
  el_props (r_child r) !! "onLongPress".

(** A child with a long-press handler of its own. *)
Definition button : element :=
  {| el_type := "Appbar.Action";
     el_props := {[ "icon" := PString "search"; "onLongPress" := PFunction 2 ]};
     el_ref := None;
     el_key := None |}.

(** ** Vocabulary for further properties *)

Definition is_Measured (e : event) : bool :=
  match e with Measured _ _ _ _ => true | _ => false end.

Definition is_lifecycle (e : event) : bool :=
  match e with DidMount | WillUnmount => true | _ => false end.

(** Events that are neither touches nor the unmount. *)
Definition is_passive (e : event) : bool :=
  match e with
  | TouchStart | TouchEndCapture | TouchCancel | WillUnmount => false
  | _ => true
  end.

(** The only events whose handling can change [tooltipVisible]. *)
Definition may_toggle (e : event) : bool :=
  match e with TouchCancel | Elapse _ => true | _ => false end.

(** Timer handles are pairwise distinct and below the next one to be
    handed out. *)
Definition handles_fresh (c : Component) : Prop :=
  List.NoDup (map timer_id (timers c)) /\
  forall t, In t (timers c) -> timer_id t < nextTimerId c.

(** Every show/hide timer pending is the one [_longPressTimeout] names. *)
Definition named (c : Component) : Prop :=
  forall t, In t (timers c) -> is_longPress (timer_cb t) = true ->
            _longPressTimeout c = Some (timer_id t).

(** A run in which a touch starts only while no show/hide timer is
    pending. *)
Fixpoint disciplined (delay : nat) (es : list event) (c : Component) : bool :=
  match es with
  | [] => true
  | e :: es' =>
      (if is_TouchStart e
       then match pendingLongPress c with [] => true | _ => false end
       else true)
      && disciplined delay es' (step delay c e)
  end.

(** The child has no usable native handle: no reference, [null] or 0. *)
Definition no_handle (c : Component) : Prop :=
  match _children c with
  | None => True
  | Some element =>
      match findNodeHandle element with
      | None | Some O => True
      | Some (S _) => False
      end
  end.

(** The names the destructuring of line 271 takes out of [rest], and the
    two [cloneElement] does not treat as properties. *)
Definition withheld : list string := ["title"; "wrapperStyle"; "style"; "theme"].
Definition reserved : list string := ["ref"; "key"].

(** [static defaultProps] (line 87). *)
Definition defaultProps : gmap string propval :=
  {[ "delayLongPress" := PNumber 500 ]}.

(** [this.props] as React builds it from what the parent passes: the
    children apart, and a default under every name of [defaultProps] the
    parent left out. *)
Definition createProps (children : list element) (passed : gmap string propval)
    : Props :=
  {| children := children;
     attrs := delete "children" (passed ∪ defaultProps) |}.

(** The part of the state the layout handler writes. *)
Definition layout_part (s : State) : TooltipLayout * float * bool :=
  (tooltipLayout s, tooltipOpacity s, tooltipMeasured s).

(** The opacity and the tooltip rectangle follow the measured flag. *)
Definition layout_consistent (s : State) : Prop :=
  if tooltipMeasured s
  then tooltipOpacity s = 0.9%float
  else tooltipOpacity s = 0%float /\ tooltipLayout s = mkTooltipLayout 0 0.

Definition is_measure (cb : callback) : bool :=
  match cb with MeasureChildren _ => true | _ => false end.

(** [t0] is the only show/hide timer there is, and [v0] the visibility when
    it was set; either it is still to come and nothing has changed, or its
    closure has run. *)
Definition single (t0 : timer) (v0 : bool) (c : Component) : Prop :=
  mounted c = true /\
  (forall t, In t (timers c) -> is_longPress (timer_cb t) = true -> t = t0) /\
  ((In t0 (timers c) /\ clock c <= timer_due t0 /\ visible c = v0) \/
   visible c = after_callback (timer_cb t0) v0).

(** * Part II: properties *)

Local Open Scope float_scope.

(** ** Comparisons of doubles *)

Lemma SFcompare_antisym a b :
  SFcompare b a = option_map CompOpp (SFcompare a b).
Proof.
  destruct a as [sa|sa| |sa ma ea], b as [sb|sb| |sb mb eb]; simpl;
    try reflexivity; try (destruct sa; reflexivity);
    try (destruct sb; reflexivity); try (destruct sa, sb; reflexivity).
  destruct sa, sb; simpl; try reflexivity;
    rewrite (Z.compare_antisym ea eb); destruct (ea ?= eb)%Z eqn:E; simpl;
      try reflexivity; rewrite !Pos.compare_cont_spec; simpl;
      rewrite (Pos.compare_antisym ma mb); destruct (ma ?= mb)%positive;
      reflexivity.
Qed.





(** [a <= b] rules out [a > b]. *)
Lemma leb_not_gt a b : (a <=? b) = true -> num_gt a b = false.
Proof.
  unfold num_gt. rewrite leb_spec, ltb_spec. unfold SFleb, SFltb.
  rewrite (SFcompare_antisym (Prim2SF a) (Prim2SF b)).
  destruct (SFcompare (Prim2SF a) (Prim2SF b)) as [[| |]|]; simpl; congruence.
Qed.



(** Adding to zero does not change how a number compares. *)
Lemma zero_add_gt x h : num_gt (0 + x) h = num_gt x h.
Proof.
  unfold num_gt. rewrite !ltb_spec, add_spec. unfold SFltb.
  change (Prim2SF 0) with (S754_zero false).
  destruct (Prim2SF x) as [s|s| |s m e], (Prim2SF h) as [sh|sh| |sh mh eh];
    try reflexivity; destruct s; reflexivity.
Qed.

(** ** The three horizontal branches and the two vertical ones *)

Lemma x_right st win :
  _overflowRight st win (centerDistanceFromChildren st) = true ->
  _getTooltipXPosition st win
  = cl_x (childrenLayout st) + cl_width (childrenLayout st)
    - tl_width (tooltipLayout st).
Proof.
  intros H. unfold _getTooltipXPosition. cbv zeta. rewrite H. reflexivity.
Qed.

Lemma x_left st win :
  _overflowRight st win (centerDistanceFromChildren st) = false ->
  _overflowLeft (centerDistanceFromChildren st) = true ->
  _getTooltipXPosition st win = cl_x (childrenLayout st).
Proof.
  intros H1 H2. unfold _getTooltipXPosition. cbv zeta. rewrite H1, H2.
  reflexivity.
Qed.

Lemma x_center st win :
  _overflowRight st win (centerDistanceFromChildren st) = false ->
  _overflowLeft (centerDistanceFromChildren st) = false ->
  _getTooltipXPosition st win = centerDistanceFromChildren st.
Proof.
  intros H1 H2. unfold _getTooltipXPosition. cbv zeta. rewrite H1, H2.
  reflexivity.
Qed.

Lemma y_below sb st win :
  _overflowBottom sb st win = false ->
  _getTooltipYPosition sb st win
  = cl_y (childrenLayout st) + tl_height (tooltipLayout st).
Proof.
  intros H. unfold _getTooltipYPosition. cbv zeta. rewrite H. reflexivity.
Qed.

Lemma y_above sb st win :
  _overflowBottom sb st win = true ->
  _getTooltipYPosition sb st win
  = cl_y (childrenLayout st) - tl_height (tooltipLayout st)
    - tooltip_marginTop - sb.
Proof.
  intros H. unfold _getTooltipYPosition. cbv zeta. rewrite H. reflexivity.
Qed.

(** The model rounds as the code does. Thirds of a point, as a device of
    density 3 reports them: the sum below is exactly 812 in doubles, the
    centred right edge exactly 375, and the centred value exactly 0. *)
Example doubles_round_as_the_code :
  _getTooltipYPosition 24 (rects 0 694.3333333333334 0 28 0 65.66666666666667)
    (mkWindow 375 812) = 760 /\
  _getTooltipXPosition (rects 159.33333333333334 0 131.33333333333334 0 300 0)
    (mkWindow 375 812) = 75.00000000000001 /\
  _getTooltipXPosition (rects 34.666666666666664 0 30.666666666666668 0 100 0)
    (mkWindow 375 812) = 0.
Proof. repeat split; reflexivity. Qed.

(** ** Claims about the position calculator *)

(** C4, as stated, fails: a 60-wide child at x = 200, y = 600 with a
    300 x 60 tooltip in a 320 x 700 window gets left = -40 and a bottom
    edge at 720. *)
Lemma C4_counterexample :
  ~ inside_window 24 (rects 200 600 60 10 300 60) (mkWindow 320 700).
Proof.
  unfold inside_window. cbv zeta. intros (Hleft & _).
  vm_compute in Hleft. discriminate Hleft.
Qed.

Example C4_counterexample_bottom_edge :
  let st := rects 200 600 60 10 300 60 in
  let win := mkWindow 320 700 in
  _getTooltipXPosition st win = -40 /\
  _overflowBottom 24 st win = false /\
  _getTooltipYPosition 24 st win + tl_height (tooltipLayout st) = 720 /\
  (win_height win <? _getTooltipYPosition 24 st win + tl_height (tooltipLayout st))
  = true.
Proof. repeat split; reflexivity. Qed.

(** C4, amended. The tooltip is kept inside the window on the horizontal
    axis when the centred position fits, that is when [0 <= centred] and
    [centred + tooltipWidth <= viewportWidth] as the code computes them:
    the left edge is then the centred value. Otherwise the tooltip is only
    aligned with the child: [childX + childWidth - tooltipWidth] when the
    centred right edge exceeds the window width, [childX] when it does not
    and the centred value is negative; the opposite edge is not tested.
    On the vertical axis the top is [childY + tooltipHeight], or the
    flipped value when [childY + childHeight + tooltipHeight +
    statusBarOffset] exceeds the window height; neither is tested against
    the window. *)
Theorem C4_placement sb st win :
  let c := centerDistanceFromChildren st in
  let cx := cl_x (childrenLayout st) in
  let cy := cl_y (childrenLayout st) in
  let cw := cl_width (childrenLayout st) in
  let ch := cl_height (childrenLayout st) in
  let tw := tl_width (tooltipLayout st) in
  let th := tl_height (tooltipLayout st) in
  let left := _getTooltipXPosition st win in
  let top := _getTooltipYPosition sb st win in
  ((0 <=? c) = true -> (c + tw <=? win_width win) = true ->
     left = c /\
     (0 <=? left) = true /\ (left + tw <=? win_width win) = true) /\
  ((win_width win <? c + tw) = true -> left = cx + cw - tw) /\
  ((win_width win <? c + tw) = false -> (c <? 0) = true -> left = cx) /\
  ((win_height win <? cy + ch + th + sb) = false -> top = cy + th) /\
  ((win_height win <? cy + ch + th + sb) = true ->
     top = cy - th - tooltip_marginTop - sb).
Proof.
  cbv zeta. split; [|split; [|split; [|split]]].
  - intros H0 Hr.
    assert (E : _getTooltipXPosition st win = centerDistanceFromChildren st).
    { apply x_center.
      - exact (leb_not_gt _ _ Hr).
      - exact (leb_not_gt _ _ H0). }
    rewrite E. repeat split; assumption.
  - apply x_right.
  - apply x_left.
  - apply y_below.
  - apply y_above.
Qed.

Lemma C4_placement_witness :
  let st := rects 100 100 80 40 60 30 in
  let win := mkWindow 320 700 in
  _getTooltipXPosition st win = 110 /\
  (0 <=? _getTooltipXPosition st win) = true /\
  (_getTooltipXPosition st win + 60 <=? 320) = true.
Proof.
  cbv zeta.
  destruct (proj1 (C4_placement 24 (rects 100 100 80 40 60 30) (mkWindow 320 700)))
    as (H1 & H2 & H3).
  - reflexivity.
  - reflexivity.
  - split; [rewrite H1; reflexivity|]. split; assumption.
Defined.

(** C5, as stated, fails on its own scenario: the centred value for a
    child at x = 150 of width 100 and a tooltip 300 wide is 50, not 100. *)
Lemma C5_counterexample :
  _getTooltipXPosition (rects 150 0 100 0 300 0) (mkWindow 400 800) <> 100.
Proof.
  intros H.
  apply (f_equal (fun x => x =? 100)) in H. vm_compute in H. discriminate H.
Qed.

(** C5, amended. The horizontal position is [childX + childWidth -
    tooltipWidth] when the centred value plus the tooltip width exceeds the
    window width; otherwise [childX] when the centred value is negative;
    otherwise the centred value. For a child at x = 150 of width 100, a
    tooltip 300 wide and a window 400 wide the centred value is 50, its
    right edge 350, and the position is 50. A right edge landing exactly on
    the window width (child at x = 200, centred value 100) is not right
    overflow: the position is 100. *)
Theorem C5_horizontal_position :
  (forall st win,
     let c := centerDistanceFromChildren st in
     let cx := cl_x (childrenLayout st) in
     let cw := cl_width (childrenLayout st) in
     let tw := tl_width (tooltipLayout st) in
     ((win_width win <? c + tw) = true ->
        _getTooltipXPosition st win = cx + cw - tw) /\
     ((win_width win <? c + tw) = false -> (c <? 0) = true ->
        _getTooltipXPosition st win = cx) /\
     ((win_width win <? c + tw) = false -> (c <? 0) = false ->
        _getTooltipXPosition st win = c)) /\
  (let st := rects 150 0 100 0 300 0 in
   let win := mkWindow 400 800 in
   centerDistanceFromChildren st = 50 /\
   centerDistanceFromChildren st + 300 = 350 /\
   _getTooltipXPosition st win = 50) /\
  (let st := rects 200 0 100 0 300 0 in
   let win := mkWindow 400 800 in
   centerDistanceFromChildren st + 300 = 400 /\
   _overflowRight st win (centerDistanceFromChildren st) = false /\
   _getTooltipXPosition st win = 100).
Proof.
  split; [|split].
  - intros st win. cbv zeta. repeat split.
    + apply x_right.
    + apply x_left.
    + apply x_center.
  - cbv zeta. repeat split; reflexivity.
  - cbv zeta. repeat split; reflexivity.
Qed.

Lemma C5_horizontal_position_witness :
  let st := rects 150 0 100 0 300 0 in
  let win := mkWindow 400 800 in
  _getTooltipXPosition st win = centerDistanceFromChildren st.
Proof.
  cbv zeta.
  apply (proj1 C5_horizontal_position (rects 150 0 100 0 300 0) (mkWindow 400 800)).
  - reflexivity.
  - reflexivity.
Defined.

(** C6, as stated, fails: when the tooltip is wider than the window the
    centred value can be negative and overflow to the right at once, and
    the right-overflow branch is tried first. *)
Lemma C6_counterexample :
  let st := rects 10 0 20 0 300 0 in
  let win := mkWindow 100 800 in
  ~ ((centerDistanceFromChildren st <? 0) = true ->
     _getTooltipXPosition st win = cl_x (childrenLayout st)).
Proof.
  cbv zeta. intros H. specialize (H eq_refl).
  apply (f_equal (fun x => x =? 10)) in H. vm_compute in H. discriminate H.
Qed.

(** C6, amended. When the centred value is negative and the centred value
    plus the tooltip width does not exceed the window width, the horizontal
    position is [childX]. For a child at x = 10 of width 20, a tooltip 300
    wide and a window 400 wide the centred value is -130 and the position
    is 10. *)
Theorem C6_left_aligned st win :
  (centerDistanceFromChildren st <? 0) = true ->
  (win_width win <? centerDistanceFromChildren st + tl_width (tooltipLayout st))
  = false ->
  _getTooltipXPosition st win = cl_x (childrenLayout st).
Proof. intros H1 H2. apply x_left; assumption. Qed.

Lemma C6_left_aligned_witness :
  let st := rects 10 0 20 0 300 0 in
  let win := mkWindow 400 800 in
  centerDistanceFromChildren st = -130 /\ _getTooltipXPosition st win = 10.
Proof.
  cbv zeta. split; [reflexivity|].
  apply (C6_left_aligned (rects 10 0 20 0 300 0) (mkWindow 400 800)).
  - reflexivity.
  - reflexivity.
Defined.




Local Close Scope float_scope.
(** ** [setState] writes the state of a mounted component, nothing else *)

Lemma state_setState f c :
  state (setState f c) = if mounted c then f (state c) else state c.
Proof. unfold setState. destruct (mounted c); reflexivity. Qed.

Lemma timers_setState f c : timers (setState f c) = timers c.
Proof. unfold setState. destruct (mounted c); reflexivity. Qed.

Lemma clock_setState f c : clock (setState f c) = clock c.
Proof. unfold setState. destruct (mounted c); reflexivity. Qed.

Lemma mounted_setState f c : mounted (setState f c) = mounted c.
Proof. unfold setState. destruct (mounted c) eqn:E; exact E. Qed.

Lemma longPressTimeout_setState f c :
  _longPressTimeout (setState f c) = _longPressTimeout c.
Proof. unfold setState. destruct (mounted c); reflexivity. Qed.

Lemma nextTimerId_setState f c : nextTimerId (setState f c) = nextTimerId c.
Proof. unfold setState. destruct (mounted c); reflexivity. Qed.

Lemma changeListeners_setState f c :
  changeListeners (setState f c) = changeListeners c.
Proof. unfold setState. destruct (mounted c); reflexivity. Qed.

Lemma measuring_setState f c : measuring (setState f c) = measuring c.
Proof. unfold setState. destruct (mounted c); reflexivity. Qed.

Lemma window_setState f c : window (setState f c) = window c.
Proof. unfold setState. destruct (mounted c); reflexivity. Qed.

(** Case analysis on whether React applies or drops the update. *)
Ltac applied_or_dropped :=
  unfold _showTooltip, _hideTooltip, measureCallback, setState;
  repeat match goal with
         | |- context [mounted ?c] => destruct (mounted c) eqn:?
         end.

(** ** The timer queue *)

Lemma pop_earliest_None ts : pop_earliest ts = None -> ts = [].
Proof.
  destruct ts as [|t ts]; [reflexivity|]. simpl.
  destruct (pop_earliest ts) as [[u rest]|]; [|discriminate].
  destruct (Nat.leb _ _); discriminate.
Qed.

Lemma pop_earliest_Some ts t rest :
  pop_earliest ts = Some (t, rest) ->
  length ts = S (length rest) /\
  (forall u, In u ts <-> u = t \/ In u rest) /\
  (forall u, In u ts -> timer_due t <= timer_due u).
Proof.
  revert t rest. induction ts as [|a ts IH]; intros t rest H; [discriminate|].
  simpl in H. destruct (pop_earliest ts) as [[u r]|] eqn:E.
  - destruct (IH u r eq_refl) as (Hlen & Hin & Hmin).
    destruct (Nat.leb (timer_due a) (timer_due u)) eqn:Hle; inversion H; subst.
    + apply Nat.leb_le in Hle. split; [reflexivity|]. split.
      * intros x. simpl. intuition congruence.
      * intros x [<-|Hx]; [lia|]. specialize (Hmin x Hx). lia.
    + apply Nat.leb_gt in Hle. split; [simpl; lia|]. split.
      * intros x. simpl. rewrite Hin. intuition congruence.
      * intros x [<-|Hx]; [lia|]. exact (Hmin x Hx).
  - apply pop_earliest_None in E. subst ts. inversion H; subst.
    split; [reflexivity|]. split.
    + intros x. simpl. intuition congruence.
    + intros x [<-|[]]. lia.
Qed.

Lemma timers_run_callback cb c : timers (run_callback cb c) = timers c.
Proof. destruct cb as [|[]|]; simpl; try apply timers_setState; reflexivity. Qed.

Lemma longPressTimeout_run_callback cb c :
  _longPressTimeout (run_callback cb c) = _longPressTimeout c.
Proof.
  destruct cb as [|[]|]; simpl; try apply longPressTimeout_setState; reflexivity.
Qed.

Lemma nextTimerId_run_callback cb c :
  nextTimerId (run_callback cb c) = nextTimerId c.
Proof.
  destruct cb as [|[]|]; simpl; try apply nextTimerId_setState; reflexivity.
Qed.

Lemma timers_fire t rest c : timers (fire t rest c) = rest.
Proof. unfold fire. rewrite timers_run_callback. reflexivity. Qed.

(** An invariant kept by every firing is kept by [run_timers]. *)
Lemma run_timers_ind (P : Component -> Prop) deadline :
  (forall c t rest,
     P c -> pop_earliest (timers c) = Some (t, rest) ->
     timer_due t <= deadline -> P (fire t rest c)) ->
  forall fuel c, P c -> P (run_timers fuel deadline c).
Proof.
  intros Hfire. induction fuel as [|fuel IH]; intros c Hc; [exact Hc|].
  simpl. destruct (pop_earliest (timers c)) as [[t rest]|] eqn:E; [|exact Hc].
  destruct (Nat.leb (timer_due t) deadline) eqn:Hle; [|exact Hc].
  apply IH. apply (Hfire c t rest Hc E). apply Nat.leb_le, Hle.
Qed.

(** With one round per pending timer nothing due is left behind: the fuel
    of [elapse] is enough. *)
Lemma run_timers_complete deadline fuel c :
  length (timers c) <= fuel ->
  forall t, In t (timers (run_timers fuel deadline c)) -> deadline < timer_due t.
Proof.
  revert c. induction fuel as [|fuel IH]; intros c Hlen t Hin.
  - simpl in Hin. destruct (timers c); [destruct Hin | simpl in Hlen; lia].
  - simpl in Hin.
    destruct (pop_earliest (timers c)) as [[u rest]|] eqn:E.
    + destruct (pop_earliest_Some _ _ _ E) as (Hl & _ & Hmin).
      destruct (Nat.leb (timer_due u) deadline) eqn:Hle.
      * apply (IH (fire u rest c)); [rewrite timers_fire; lia | exact Hin].
      * apply Nat.leb_gt in Hle. specialize (Hmin t Hin). lia.
    + apply pop_earliest_None in E. rewrite E in Hin. destruct Hin.
Qed.

Lemma elapse_nothing_due ms c t :
  In t (timers (elapse ms c)) -> clock (elapse ms c) < timer_due t.
Proof.
  unfold elapse. simpl. apply run_timers_complete. reflexivity.
Qed.

(** ** What the handlers leave alone *)

Lemma state_setChildrenPosition c : state (_setChildrenPosition c) = state c.
Proof.
  unfold _setChildrenPosition.
  destruct (_children c) as [el|]; [|reflexivity].
  destruct (findNodeHandle el) as [[|n]|]; reflexivity.
Qed.

Lemma state_clearTimeout h c : state (clearTimeout h c) = state c.
Proof. destruct h; reflexivity. Qed.

Lemma state_listeners ls c :
  state (fold_left (fun acc l => call_listener l acc) ls c) = state c.
Proof.
  revert c. induction ls as [|[] ls IH]; intros c; [reflexivity|].
  simpl. rewrite IH. apply state_setChildrenPosition.
Qed.

Lemma measured_run_callback cb c :
  measured (run_callback cb c) = measured c.
Proof.
  destruct cb as [|[]|]; simpl; unfold measured; applied_or_dropped; reflexivity.
Qed.

Lemma mounted_run_callback cb c : mounted (run_callback cb c) = mounted c.
Proof.
  destruct cb as [|[]|]; simpl; try apply mounted_setState; reflexivity.
Qed.

Lemma mounted_elapse ms c : mounted (elapse ms c) = mounted c.
Proof.
  unfold elapse.
  change (mounted (run_timers (length (timers c)) (clock c + ms) c) = mounted c).
  apply (run_timers_ind (fun c' => mounted c' = mounted c)); [|reflexivity].
  intros c' t rest H _ _. unfold fire. rewrite mounted_run_callback. exact H.
Qed.

Lemma measured_elapse ms c : measured (elapse ms c) = measured c.
Proof.
  unfold elapse.
  change (measured (run_timers (length (timers c)) (clock c + ms) c) = measured c).
  apply (run_timers_ind (fun c' => measured c' = measured c)); [|reflexivity].
  intros c' t rest H _ _. unfold fire. rewrite measured_run_callback. exact H.
Qed.

(** No event but a layout event touches the measured flag. *)
Lemma measured_step delay c e :
  is_Layout e = false -> measured (step delay c e) = measured c.
Proof.
  destruct e; intros He; try discriminate He; simpl.
  - reflexivity.
  - unfold componentDidMount, measured. rewrite state_setChildrenPosition.
    reflexivity.
  - unfold componentWillUnmount, _clearTimeouts, clearTimeout. simpl.
    destruct (_longPressTimeout c); reflexivity.
  - unfold measured. rewrite state_listeners. reflexivity.
  - reflexivity.
  - unfold _handleTouchEndCapture, _clearTimeouts, clearTimeout.
    destruct (_longPressTimeout c); reflexivity.
  - unfold _handleTouchCancel, _hideTooltip, measured.
    rewrite state_setState. unfold _clearTimeouts. rewrite state_clearTimeout.
    destruct (mounted _); reflexivity.
  - destruct (measuring c); [reflexivity|].
    unfold measureCallback, measured. rewrite state_setState.
    destruct (mounted _); reflexivity.
  - apply measured_elapse.
Qed.

(** Once measured, a layout event changes nothing at all. *)
Lemma layout_ignored w h c :
  measured c = true -> _handleTooltipLayout w h c = c.
Proof.
  unfold measured, _handleTooltipLayout. intros ->. reflexivity.
Qed.

Lemma measured_stays delay c e :
  measured c = true -> measured (step delay c e) = true.
Proof.
  intros H. destruct (is_Layout e) eqn:He.
  - destruct e; try discriminate He. simpl.
    rewrite layout_ignored; assumption.
  - rewrite measured_step; assumption.
Qed.

Lemma measured_stays_run delay es c :
  measured c = true -> measured (run delay es c) = true.
Proof.
  revert c. induction es as [|e es IH]; intros c H; [exact H|].
  simpl. apply IH. apply measured_stays. exact H.
Qed.

Lemma unmeasured_run delay es c :
  forallb (fun e => negb (is_Layout e)) es = true ->
  measured (run delay es c) = measured c.
Proof.
  revert c. induction es as [|e es IH]; intros c H; [reflexivity|].
  simpl in H. apply andb_prop in H. destruct H as [He Hes].
  simpl. rewrite (IH _ Hes). apply measured_step.
  apply negb_true_iff. exact He.
Qed.

(** ** Claim about the layout observer *)

(** C10. The first layout event of the tooltip (the component is mounted
    when it arrives) stores its size as the tooltip rectangle, sets the
    opacity to 0.9 and sets the measured flag, and changes nothing else;
    every later layout event, whatever happens in between, leaves the whole
    component unchanged. *)
Theorem C10_first_layout_only delay win es1 w h :
  forallb (fun e => negb (is_Layout e)) es1 = true ->
  mounted (run delay es1 (initial win)) = true ->
  let c0 := run delay es1 (initial win) in
  let c1 := step delay c0 (Layout w h) in
  c1 = with_state
         {| childrenLayout := childrenLayout (state c0);
            tooltipLayout := mkTooltipLayout w h;
            tooltipVisible := tooltipVisible (state c0);
            tooltipOpacity := 0.9%float;
            tooltipMeasured := true |} c0 /\
  forall es2 w' h',
    step delay (run delay es2 c1) (Layout w' h') = run delay es2 c1.
Proof.
  intros Hes Hm c0 c1.
  assert (H0 : measured c0 = false).
  { unfold c0. rewrite (unmeasured_run _ _ _ Hes). reflexivity. }
  assert (H1 : c1 = with_state
         {| childrenLayout := childrenLayout (state c0);
            tooltipLayout := mkTooltipLayout w h;
            tooltipVisible := tooltipVisible (state c0);
            tooltipOpacity := 0.9%float;
            tooltipMeasured := true |} c0).
  { unfold c1. simpl. unfold _handleTooltipLayout.
    unfold measured in H0. rewrite H0. simpl. unfold setState.
    fold c0 in Hm. rewrite Hm. reflexivity. }
  split; [exact H1|].
  intros es2 w' h'. simpl. apply layout_ignored.
  apply measured_stays_run. rewrite H1. reflexivity.
Qed.

Lemma C10_first_layout_only_witness :
  let c1 := run 500 [RefSet (Some (mkChildRef (Some 7))); DidMount; TouchStart;
                     Elapse 600; Layout 120 32] (initial (mkWindow 400 800)) in
  tooltipLayout (state c1) = mkTooltipLayout 120 32 /\
  tooltipOpacity (state c1) = 0.9%float /\
  tooltipMeasured (state c1) = true /\
  step 500 (run 500 [TouchEndCapture; Elapse 600] c1) (Layout 200 64)
  = run 500 [TouchEndCapture; Elapse 600] c1.
Proof.
  cbv zeta.
  pose proof (C10_first_layout_only 500 (mkWindow 400 800)
                [RefSet (Some (mkChildRef (Some 7))); DidMount; TouchStart; Elapse 600]
                120 32 eq_refl eq_refl) as H.
  cbv zeta in H. destruct H as [H1 H2].
  change (run 500 [RefSet (Some (mkChildRef (Some 7))); DidMount; TouchStart;
                   Elapse 600; Layout 120 32] (initial (mkWindow 400 800)))
    with (step 500 (run 500 [RefSet (Some (mkChildRef (Some 7))); DidMount;
                             TouchStart; Elapse 600] (initial (mkWindow 400 800)))
            (Layout 120 32)).
  split; [rewrite H1; reflexivity|].
  split; [rewrite H1; reflexivity|].
  split; [rewrite H1; reflexivity|].
  apply H2.
Defined.

(** ** Pending timers of a given kind *)

Lemma filter_nil {A} (f : A -> bool) (l : list A) :
  List.filter f l = [] <-> (forall x, In x l -> f x = false).
Proof.
  induction l as [|a l IH]; simpl.
  - split; [intros _ x [] | reflexivity].
  - destruct (f a) eqn:E; split.
    + discriminate.
    + intros H. specialize (H a (or_introl eq_refl)). congruence.
    + intros H x [<-|Hx]; [exact E | apply IH; assumption].
    + intros H. apply IH. intros x Hx. apply H. right. exact Hx.
Qed.

Section Pending.

Variable f : callback -> bool.
Hypothesis f_measure : forall target, f (MeasureChildren target) = false.

Lemma pending_setChildrenPosition c :
  pendingBy f (_setChildrenPosition c) = pendingBy f c.
Proof.
  unfold _setChildrenPosition.
  destruct (_children c) as [el|]; [|reflexivity].
  destruct (findNodeHandle el) as [[|n]|]; try reflexivity.
  unfold pendingBy. simpl. rewrite List.filter_app. simpl.
  rewrite f_measure. apply app_nil_r.
Qed.

Lemma pending_listeners ls c :
  pendingBy f (fold_left (fun acc l => call_listener l acc) ls c)
  = pendingBy f c.
Proof.
  revert c. induction ls as [|[] ls IH]; intros c; [reflexivity|].
  simpl. rewrite IH. apply pending_setChildrenPosition.
Qed.

Lemma pending_clearTimeout h c :
  pendingBy f c = [] -> pendingBy f (clearTimeout h c) = [].
Proof.
  unfold pendingBy. intros H. destruct h as [id|]; [|exact H].
  simpl. apply filter_nil. intros x Hx. apply List.filter_In in Hx.
  destruct Hx as [Hx _]. exact (proj1 (filter_nil _ _) H x Hx).
Qed.

End Pending.

(** ** Visibility while no show timer is pending *)

Lemma visible_run_callback_hidden cb c :
  is_show cb = false -> visible c = false ->
  visible (run_callback cb c) = false.
Proof.
  destruct cb as [|[]|]; intros H1 H2; try discriminate H1; simpl; try exact H2.
  unfold visible, _hideTooltip. rewrite state_setState.
  destruct (mounted c); [reflexivity | exact H2].
Qed.

Lemma hide_hidden c : visible c = false -> visible (_hideTooltip c) = false.
Proof.
  intros H. unfold visible, _hideTooltip. rewrite state_setState.
  destruct (mounted c); [reflexivity | exact H].
Qed.

Lemma visible_clearTimeouts c : visible (_clearTimeouts c) = visible c.
Proof. unfold visible, _clearTimeouts. rewrite state_clearTimeout. reflexivity. Qed.

Lemma visible_layout w h c : visible (_handleTooltipLayout w h c) = visible c.
Proof.
  unfold visible, _handleTooltipLayout. destruct (negb _); [|reflexivity].
  rewrite state_setState. destruct (mounted c); reflexivity.
Qed.

Lemma visible_measureCallback w h px py c :
  visible (measureCallback w h px py c) = visible c.
Proof.
  unfold visible, measureCallback. rewrite state_setState.
  destruct (mounted c); reflexivity.
Qed.

Lemma timers_layout w h c : timers (_handleTooltipLayout w h c) = timers c.
Proof.
  unfold _handleTooltipLayout. destruct (negb _); [apply timers_setState|reflexivity].
Qed.

Lemma longPressTimeout_layout w h c :
  _longPressTimeout (_handleTooltipLayout w h c) = _longPressTimeout c.
Proof.
  unfold _handleTooltipLayout.
  destruct (negb _); [apply longPressTimeout_setState|reflexivity].
Qed.

Lemma pendingBy_setState f g c : pendingBy f (setState g c) = pendingBy f c.
Proof. unfold pendingBy. rewrite timers_setState. reflexivity. Qed.

Lemma pendingBy_layout f w h c :
  pendingBy f (_handleTooltipLayout w h c) = pendingBy f c.
Proof. unfold pendingBy. rewrite timers_layout. reflexivity. Qed.

Lemma hidden_idle_elapse ms c :
  visible c = false -> showPending c = [] ->
  visible (elapse ms c) = false /\ showPending (elapse ms c) = [].
Proof.
  intros Hv Hs. unfold elapse.
  set (c' := run_timers _ _ _).
  assert (H : visible c' = false /\ showPending c' = []).
  { apply (run_timers_ind (fun c' => visible c' = false /\ showPending c' = []));
      [|split; assumption].
    intros c0 t rest [Hv0 Hs0] Hpop _.
    destruct (pop_earliest_Some _ _ _ Hpop) as (_ & Hin & _).
    pose proof (proj1 (filter_nil _ _) Hs0) as Hall. split.
    - apply visible_run_callback_hidden; [|exact Hv0].
      apply (Hall t). apply Hin. left. reflexivity.
    - unfold showPending, pendingBy. rewrite timers_fire.
      apply filter_nil. intros x Hx. apply (Hall x). apply Hin. right. exact Hx. }
  exact H.
Qed.

(** Hidden, and no show timer pending: nothing but a touch start ends it. *)
Lemma hidden_idle_step delay c e :
  is_TouchStart e = false ->
  visible c = false -> showPending c = [] ->
  visible (step delay c e) = false /\ showPending (step delay c e) = [].
Proof.
  intros He Hv Hs. destruct e; try discriminate He; simpl.
  - split; assumption.
  - unfold componentDidMount. split.
    + unfold visible. rewrite state_setChildrenPosition. exact Hv.
    + unfold showPending. rewrite pending_setChildrenPosition by reflexivity.
      exact Hs.
  - unfold componentWillUnmount. split.
    + unfold visible, _clearTimeouts, clearTimeout. simpl.
      destruct (_longPressTimeout c); exact Hv.
    + apply (pending_clearTimeout is_show (_longPressTimeout c)
               (removeEventListener SetChildrenPosition c)). exact Hs.
  - split.
    + unfold visible. rewrite state_listeners. exact Hv.
    + unfold showPending. rewrite pending_listeners by reflexivity. exact Hs.
  - unfold _handleTouchEndCapture. split.
    + unfold visible, _clearTimeouts, clearTimeout.
      destruct (_longPressTimeout c); exact Hv.
    + pose proof (pending_clearTimeout is_show (_longPressTimeout c) c Hs) as Hc.
      unfold showPending, pendingBy in *. simpl.
      rewrite List.filter_app. unfold _clearTimeouts. rewrite Hc. reflexivity.
  - unfold _handleTouchCancel. split.
    + apply hide_hidden. rewrite visible_clearTimeouts. exact Hv.
    + unfold showPending, _hideTooltip. rewrite pendingBy_setState.
      apply (pending_clearTimeout is_show (_longPressTimeout c) c). exact Hs.
  - split; [rewrite visible_layout; exact Hv|].
    unfold showPending. rewrite pendingBy_layout. exact Hs.
  - destruct (measuring c); [split; assumption|]. split.
    + rewrite visible_measureCallback. exact Hv.
    + unfold showPending, measureCallback. rewrite pendingBy_setState. exact Hs.
  - apply hidden_idle_elapse; assumption.
Qed.

Lemma hidden_idle_trace delay es c :
  forallb (fun e => negb (is_TouchStart e)) es = true ->
  visible c = false -> showPending c = [] ->
  Forall (fun c' => visible c' = false) (trace delay es c).
Proof.
  revert c. induction es as [|e es IH]; intros c Hes Hv Hs; [constructor|].
  simpl in Hes. apply andb_prop in Hes. destruct Hes as [He Hes].
  apply negb_true_iff in He.
  destruct (hidden_idle_step delay c e He Hv Hs) as [Hv' Hs'].
  simpl. constructor; [exact Hv'|]. apply IH; assumption.
Qed.

(** ** Between a touch start and its cancel *)

Lemma setChildrenPosition_cases c :
  _setChildrenPosition c = c \/
  exists target,
    _setChildrenPosition c = fst (setTimeout (MeasureChildren target) 500 c).
Proof.
  unfold _setChildrenPosition.
  destruct (_children c) as [el|]; [|left; reflexivity].
  destruct (findNodeHandle el) as [[|n]|]; try (left; reflexivity).
  right. eexists. reflexivity.
Qed.

Lemma listeners_ind (P : Component -> Prop) :
  (forall c target, P c -> P (fst (setTimeout (MeasureChildren target) 500 c))) ->
  forall ls c, P c -> P (fold_left (fun acc l => call_listener l acc) ls c).
Proof.
  intros Hset. induction ls as [|[] ls IH]; intros c Hc; [exact Hc|].
  simpl. apply IH.
  destruct (setChildrenPosition_cases c) as [-> | [target ->]];
    [exact Hc | apply Hset, Hc].
Qed.

Lemma clock_step delay c e :
  clock (step delay c e) = clock c + wait_of e.
Proof.
  destruct e; simpl; rewrite ?Nat.add_0_r; try reflexivity.
  - unfold componentDidMount.
    destruct (setChildrenPosition_cases
                (addEventListener SetChildrenPosition (with_mounted true c)))
      as [-> | [target ->]]; reflexivity.
  - unfold componentWillUnmount, _clearTimeouts, clearTimeout. simpl.
    destruct (_longPressTimeout c); reflexivity.
  - apply (listeners_ind (fun c' => clock c' = clock c)); [|reflexivity].
    intros c' target H. exact H.
  - unfold _handleTouchEndCapture, _clearTimeouts, clearTimeout.
    destruct (_longPressTimeout c); reflexivity.
  - unfold _handleTouchCancel, _hideTooltip. rewrite clock_setState.
    unfold _clearTimeouts, clearTimeout.
    destruct (_longPressTimeout c); reflexivity.
  - unfold _handleTooltipLayout.
    destruct (negb _); [apply clock_setState | reflexivity].
  - destruct (measuring c); [reflexivity|].
    unfold measureCallback. rewrite clock_setState. reflexivity.
Qed.

Lemma trace_app delay es1 es2 c :
  trace delay (es1 ++ es2) c
  = trace delay es1 c ++ trace delay es2 (run delay es1 c).
Proof.
  revert c. induction es1 as [|e es1 IH]; intros c; [reflexivity|].
  simpl. rewrite IH. reflexivity.
Qed.

Section Armed.

(** The handle and the due time of the show timer set by the touch start. *)
Variables (handle due : nat).

Local Abbreviation arm := (armed handle due).

Lemma armed_setState g c :
  (forall s, tooltipVisible (g s) = tooltipVisible s) ->
  arm c -> arm (setState g c).
Proof.
  intros Hg [Hv Ht]. split.
  - unfold visible in *. rewrite state_setState.
    destruct (mounted c); [rewrite Hg|]; exact Hv.
  - intros t Hin Hs. rewrite timers_setState in Hin.
    rewrite longPressTimeout_setState. exact (Ht t Hin Hs).
Qed.

Lemma armed_setTimeout cb ms c :
  is_show cb = false -> arm c -> arm (fst (setTimeout cb ms c)).
Proof.
  intros Hcb [Hv Ht]. split; [exact Hv|].
  intros t Hin Hs. simpl in Hin. apply in_app_or in Hin.
  destruct Hin as [Hin|[<-|[]]]; [exact (Ht t Hin Hs)|].
  simpl in Hs. congruence.
Qed.

(** Clearing the timer that [_longPressTimeout] names removes every show
    timer of an armed component. *)
Lemma armed_clearTimeouts c :
  arm c -> showPending (_clearTimeouts c) = [].
Proof.
  intros [_ Ht]. unfold showPending, pendingBy. apply filter_nil.
  intros t Hin. destruct (is_show (timer_cb t)) eqn:E; [|reflexivity].
  exfalso. unfold _clearTimeouts, clearTimeout in Hin.
  destruct (_longPressTimeout c) as [id|] eqn:Hh.
  - simpl in Hin. apply List.filter_In in Hin. destruct Hin as [Hin Hne].
    destruct (Ht t Hin E) as (Hid & _ & Hh').
    inversion Hh'; subst id. rewrite Hid, Nat.eqb_refl in Hne. discriminate.
  - destruct (Ht t Hin E) as (_ & _ & Hh'). congruence.
Qed.

Lemma idle_armed c : visible c = false -> showPending c = [] -> arm c.
Proof.
  intros Hv Hs. split; [exact Hv|]. intros t Hin E.
  rewrite (proj1 (filter_nil _ _) Hs t Hin) in E. discriminate.
Qed.

Lemma armed_elapse ms c :
  clock c + ms < due -> arm c -> arm (elapse ms c).
Proof.
  intros Hms Ha. unfold elapse.
  set (c' := run_timers _ _ _).
  assert (H : arm c').
  { apply (run_timers_ind arm); [|exact Ha].
    intros c0 t rest [Hv0 Ht0] Hpop Hdue.
    destruct (pop_earliest_Some _ _ _ Hpop) as (_ & Hin & _).
    assert (Hns : is_show (timer_cb t) = false).
    { destruct (is_show (timer_cb t)) eqn:E; [|reflexivity].
      destruct (Ht0 t (proj2 (Hin t) (or_introl eq_refl)) E) as (_ & Hlate & _).
      lia. }
    split; [apply visible_run_callback_hidden; assumption|].
    intros u Hu Hs. rewrite timers_fire in Hu.
    destruct (Ht0 u (proj2 (Hin u) (or_intror Hu)) Hs) as (H1 & H2 & H3).
    split; [exact H1|]. split; [exact H2|].
    unfold fire. rewrite longPressTimeout_run_callback. exact H3. }
  exact H.
Qed.

Lemma armed_step delay c e :
  is_TouchStart e = false -> clock c + wait_of e < due ->
  arm c -> arm (step delay c e).
Proof.
  intros He Hw Ha. destruct e; try discriminate He; simpl.
  - exact Ha.
  - unfold componentDidMount.
    destruct (setChildrenPosition_cases
                (addEventListener SetChildrenPosition (with_mounted true c)))
      as [-> | [target ->]]; [exact Ha|].
    apply armed_setTimeout; [reflexivity | exact Ha].
  - apply idle_armed.
    + unfold visible, componentWillUnmount, _clearTimeouts. simpl.
      rewrite state_clearTimeout. exact (proj1 Ha).
    + exact (armed_clearTimeouts (removeEventListener SetChildrenPosition c) Ha).
  - apply listeners_ind; [|exact Ha].
    intros c' target H. apply armed_setTimeout; [reflexivity | exact H].
  - unfold _handleTouchEndCapture.
    pose proof (armed_clearTimeouts c Ha) as Hs.
    apply idle_armed.
    + unfold visible, _clearTimeouts, clearTimeout.
      destruct (_longPressTimeout c); exact (proj1 Ha).
    + unfold showPending, pendingBy in *. simpl.
      rewrite List.filter_app, Hs. destruct Ha as [Hv _].
      unfold visible in Hv. rewrite Hv. reflexivity.
  - apply idle_armed.
    + unfold _handleTouchCancel. apply hide_hidden.
      rewrite visible_clearTimeouts. exact (proj1 Ha).
    + unfold _handleTouchCancel, showPending, _hideTooltip.
      rewrite pendingBy_setState. exact (armed_clearTimeouts c Ha).
  - unfold _handleTooltipLayout. destruct (negb _); [|exact Ha].
    apply armed_setState; [reflexivity | exact Ha].
  - destruct (measuring c); [exact Ha|].
    unfold measureCallback. apply armed_setState; [reflexivity|].
    exact Ha.
  - apply armed_elapse; assumption.
Qed.

Lemma armed_trace delay es c :
  forallb (fun e => negb (is_TouchStart e)) es = true ->
  clock c + waits es < due ->
  arm c ->
  arm (run delay es c) /\
  Forall (fun c' => visible c' = false) (trace delay es c).
Proof.
  revert c. induction es as [|e es IH]; intros c Hes Hw Ha.
  - split; [exact Ha | constructor].
  - simpl in Hes. apply andb_prop in Hes. destruct Hes as [He Hes].
    apply negb_true_iff in He. simpl in Hw.
    assert (Ha' : arm (step delay c e)) by (apply armed_step; [exact He | lia | exact Ha]).
    destruct (IH (step delay c e) Hes) as [Hr Hf];
      [rewrite clock_step; lia | exact Ha' |].
    split; [exact Hr|]. simpl. constructor; [exact (proj1 Ha') | exact Hf].
Qed.

End Armed.

(** ** Claims about the visibility state machine *)

(** A touch cancel hides the tooltip of a mounted component, whatever it
    showed, and leaves no timer with the handle [_longPressTimeout] named. *)
Lemma touchCancel_hides delay c :
  mounted c = true ->
  visible (step delay c TouchCancel) = false /\
  forall t, In t (timers (step delay c TouchCancel)) ->
            _longPressTimeout c <> Some (timer_id t).
Proof.
  intros Hm. simpl. unfold _handleTouchCancel, _hideTooltip. split.
  - unfold visible. rewrite state_setState.
    unfold _clearTimeouts, clearTimeout.
    destruct (_longPressTimeout c); simpl; rewrite Hm; reflexivity.
  - intros t Hin. rewrite timers_setState in Hin.
    unfold _clearTimeouts, clearTimeout in Hin.
    destruct (_longPressTimeout c) as [id|]; [|discriminate].
    simpl in Hin. apply List.filter_In in Hin. destruct Hin as [_ Hne].
    apply negb_true_iff, Nat.eqb_neq in Hne. congruence.
Qed.

(** C9. From a hidden tooltip with no show timer pending, a touch start
    followed by a touch cancel before [delayLongPress] has elapsed never
    makes the tooltip visible: not in between, whatever else happens
    there, and not afterwards, whatever follows short of a new touch
    start. The cancel removes the pending show timer and leaves the state
    hidden at once; on any mounted component, visible or not, a touch
    cancel sets the state to hidden and leaves no timer under the handle
    [_longPressTimeout] held. *)
Theorem C9_cancel_before_delay delay c mid es :
  visible c = false -> showPending c = [] ->
  forallb (fun e => negb (is_TouchStart e)) mid = true ->
  waits mid < delay ->
  forallb (fun e => negb (is_TouchStart e)) es = true ->
  let c3 := run delay (TouchStart :: mid ++ [TouchCancel]) c in
  Forall (fun c' => visible c' = false)
         (trace delay (TouchStart :: mid ++ TouchCancel :: es) c) /\
  showPending c3 = [] /\ visible c3 = false /\
  (forall c', mounted c' = true ->
     visible (step delay c' TouchCancel) = false /\
     forall t, In t (timers (step delay c' TouchCancel)) ->
               _longPressTimeout c' <> Some (timer_id t)).
Proof.
  intros Hv Hs Hmid Hw Hes c3.
  set (c1 := step delay c TouchStart).
  assert (Ha1 : armed (nextTimerId c) (clock c + delay) c1).
  { split; [exact Hv|]. intros t Hin E. unfold c1 in Hin. simpl in Hin.
    apply in_app_or in Hin. destruct Hin as [Hin|[<-|[]]].
    - rewrite (proj1 (filter_nil _ _) Hs t Hin) in E. discriminate.
    - simpl. split; [reflexivity|]. split; [lia | reflexivity]. }
  destruct (armed_trace (nextTimerId c) (clock c + delay) delay mid c1 Hmid)
    as [Ha2 Hf2]; [change (clock c1) with (clock c); lia | exact Ha1 |].
  set (c2 := run delay mid c1) in *.
  assert (Hc3 : c3 = step delay c2 TouchCancel).
  { unfold c3, c2, c1, run. simpl. rewrite fold_left_app. reflexivity. }
  assert (Hs3 : showPending c3 = []).
  { rewrite Hc3. simpl. unfold _handleTouchCancel, showPending, _hideTooltip.
    rewrite pendingBy_setState. exact (armed_clearTimeouts _ _ c2 Ha2). }
  assert (Hv3 : visible c3 = false).
  { rewrite Hc3. simpl. unfold _handleTouchCancel. apply hide_hidden.
    rewrite visible_clearTimeouts. exact (proj1 Ha2). }
  split; [|split; [exact Hs3 | split; [exact Hv3 | apply touchCancel_hides]]].
  change (trace delay (TouchStart :: mid ++ TouchCancel :: es) c)
    with (c1 :: trace delay (mid ++ TouchCancel :: es) c1).
  constructor; [exact Hv|].
  rewrite trace_app. apply Forall_app. split; [exact Hf2|].
  change (Forall (fun c' => visible c' = false)
            (step delay c2 TouchCancel
             :: trace delay es (step delay c2 TouchCancel))).
  rewrite <- Hc3. constructor; [exact Hv3|].
  apply hidden_idle_trace; assumption.
Qed.

Lemma C9_cancel_before_delay_witness :
  Forall (fun c' => visible c' = false)
    (trace 500 [TouchStart; Elapse 100; Layout 120 32; Elapse 300; TouchCancel;
                Elapse 1000; Measured 48 48 16 32; Elapse 1000]
       (mountedOn 500 (mkWindow 400 800))) /\
  (let shown := run 500 [TouchStart; Elapse 600] (mountedOn 500 (mkWindow 400 800)) in
   visible shown = true /\ visible (step 500 shown TouchCancel) = false).
Proof.
  pose proof (C9_cancel_before_delay 500 (mountedOn 500 (mkWindow 400 800))
                [Elapse 100; Layout 120 32; Elapse 300]
                [Elapse 1000; Measured 48 48 16 32; Elapse 1000]
                eq_refl eq_refl eq_refl) as H.
  cbv zeta in H. destruct H as (H1 & _ & _ & H4).
  - simpl. lia.
  - reflexivity.
  - split; [exact H1|]. split; [reflexivity|].
    apply (H4 (run 500 [TouchStart; Elapse 600] (mountedOn 500 (mkWindow 400 800)))).
    reflexivity.
Defined.

(** ** One show/hide timer pending, and it comes due *)

Lemma visible_run_callback cb c :
  mounted c = true ->
  visible (run_callback cb c) = after_callback cb (visible c).
Proof.
  intros Hm. destruct cb as [|[]|]; simpl; try reflexivity;
    unfold visible, _showTooltip, _hideTooltip; rewrite state_setState, Hm;
    reflexivity.
Qed.

Lemma after_callback_idem cb v :
  after_callback cb (after_callback cb v) = after_callback cb v.
Proof. destruct cb as [|[]|]; reflexivity. Qed.

Lemma after_callback_other cb v :
  is_longPress cb = false -> after_callback cb v = v.
Proof. destruct cb; intros H; try discriminate H; reflexivity. Qed.

(** If the only show/hide timer pending is [t0] and it is due within [ms],
    then after [ms] its closure has run and no show/hide timer is left. *)
Lemma elapse_single ms c t0 :
  mounted c = true ->
  In t0 (timers c) ->
  is_longPress (timer_cb t0) = true ->
  (forall t, In t (timers c) -> is_longPress (timer_cb t) = true -> t = t0) ->
  timer_due t0 <= clock c + ms ->
  visible (elapse ms c) = after_callback (timer_cb t0) (visible c) /\
  pendingLongPress (elapse ms c) = [].
Proof.
  intros Hm Hin0 Hlp0 Honly Hdue.
  set (P := fun c' : Component =>
    mounted c' = true /\
    (forall t, In t (timers c') -> is_longPress (timer_cb t) = true -> t = t0) /\
    ((In t0 (timers c') /\ visible c' = visible c) \/
     visible c' = after_callback (timer_cb t0) (visible c))).
  set (c' := run_timers (length (timers c)) (clock c + ms) c).
  assert (HP : P c').
  { apply (run_timers_ind P);
      [|split; [exact Hm|split; [exact Honly | left; split; [exact Hin0 | reflexivity]]]].
    intros c1 t rest (Hm1 & Ho & Hd) Hpop _.
    destruct (pop_earliest_Some _ _ _ Hpop) as (_ & Hin & _).
    split; [unfold fire; rewrite mounted_run_callback; exact Hm1|].
    split.
    - intros u Hu. rewrite timers_fire in Hu. apply Ho. apply Hin. right. exact Hu.
    - unfold fire. rewrite visible_run_callback, timers_run_callback by exact Hm1.
      change (visible (with_clock (Nat.max (clock c1) (timer_due t))
                         (with_timers rest c1))) with (visible c1).
      change (timers (with_clock (Nat.max (clock c1) (timer_due t))
                        (with_timers rest c1))) with rest.
      destruct (is_longPress (timer_cb t)) eqn:El.
      + right. rewrite (Ho t (proj2 (Hin t) (or_introl eq_refl)) El).
        destruct Hd as [[_ ->] | ->]; [reflexivity | apply after_callback_idem].
      + rewrite (after_callback_other _ _ El).
        destruct Hd as [[Hi Hv] | Hv]; [left | right; exact Hv].
        split; [|exact Hv]. apply Hin in Hi. destruct Hi as [->|Hi]; [|exact Hi].
        congruence. }
  destruct HP as (_ & Ho & Hd).
  assert (Hgone : ~ In t0 (timers c')).
  { intros Hi. apply (run_timers_complete (clock c + ms)) in Hi; [lia | reflexivity]. }
  split.
  - destruct Hd as [[Hi _] | Hv]; [contradiction | exact Hv].
  - unfold pendingLongPress. apply filter_nil. intros t Hi.
    change (timers (elapse ms c)) with (timers c') in Hi.
    destruct (is_longPress (timer_cb t)) eqn:El; [|reflexivity].
    rewrite (Ho t Hi El) in Hi. contradiction.
Qed.

(** C8. From a mounted component whose tooltip is hidden and which has no
    show/hide timer pending: a touch
    start, a wait longer than [delayLongPress], a touch end (capture phase)
    and a second wait longer than [delayLongPress] make the tooltip visible
    and then hidden again. The four components of the trace are the ones
    after each of the four events. *)
Theorem C8_show_then_hide delay c d1 d2 :
  mounted c = true ->
  visible c = false -> pendingLongPress c = [] ->
  delay < d1 -> delay < d2 ->
  map visible (trace delay [TouchStart; Elapse d1; TouchEndCapture; Elapse d2] c)
  = [false; true; true; false].
Proof.
  intros Hm Hv Hp Hd1 Hd2.
  pose proof (proj1 (filter_nil _ _) Hp) as Hnone. simpl in Hnone.
  set (c1 := _handleTouchStart delay c).
  set (t0 := mkTimer (nextTimerId c) (clock c + delay) ShowTooltip).
  destruct (elapse_single d1 c1 t0) as [Hv2 Hp2].
  { exact Hm. }
  { unfold c1. simpl. apply in_or_app. right. left. reflexivity. }
  { reflexivity. }
  { intros t Hin Hlp. unfold c1 in Hin. simpl in Hin.
    apply in_app_or in Hin. destruct Hin as [Hin|[<-|[]]]; [|reflexivity].
    rewrite (Hnone t Hin) in Hlp. discriminate. }
  { unfold c1, t0. simpl. lia. }
  assert (Hm2 : mounted (elapse d1 c1) = true)
    by (rewrite mounted_elapse; exact Hm).
  set (c2 := elapse d1 c1) in *.
  simpl in Hv2.
  pose proof (proj1 (filter_nil _ _) Hp2) as Hnone2. simpl in Hnone2.
  set (c3 := _handleTouchEndCapture delay c2).
  set (t1 := mkTimer (nextTimerId c2) (clock c2 + delay) (HideTooltipIf true)).
  assert (Hv3 : visible c3 = true).
  { unfold c3, _handleTouchEndCapture, _clearTimeouts, clearTimeout.
    destruct (_longPressTimeout c2); exact Hv2. }
  assert (Ht3 : exists kept,
             timers c3 = kept ++ [t1] /\ clock c3 = clock c2 /\
             forall t, In t kept -> In t (timers c2)).
  { unfold c3, _handleTouchEndCapture, _clearTimeouts, clearTimeout, t1.
    unfold visible in Hv2. rewrite Hv2.
    destruct (_longPressTimeout c2) as [id|]; simpl.
    - eexists. split; [reflexivity|]. split; [reflexivity|].
      intros t Hin. apply List.filter_In in Hin. tauto.
    - eexists. split; [reflexivity|]. split; [reflexivity|]. tauto. }
  destruct Ht3 as (kept & Hts & Hclk & Hkept).
  destruct (elapse_single d2 c3 t1) as [Hv4 _].
  { unfold c3, _handleTouchEndCapture, _clearTimeouts, clearTimeout.
    destruct (_longPressTimeout c2); exact Hm2. }
  { rewrite Hts. apply in_or_app. right. left. reflexivity. }
  { reflexivity. }
  { intros t Hin Hlp. rewrite Hts in Hin.
    apply in_app_or in Hin. destruct Hin as [Hin|[<-|[]]]; [|reflexivity].
    rewrite (Hnone2 t (Hkept t Hin)) in Hlp. discriminate. }
  { rewrite Hclk. unfold t1. simpl. lia. }
  simpl in Hv4.
  change (trace delay [TouchStart; Elapse d1; TouchEndCapture; Elapse d2] c)
    with [c1; c2; c3; elapse d2 c3].
  simpl. rewrite Hv2, Hv3, Hv4.
  change (visible c1) with (visible c). rewrite Hv. reflexivity.
Qed.

Lemma C8_show_then_hide_witness :
  map visible
    (trace 500 [TouchStart; Elapse 600; TouchEndCapture; Elapse 600]
       (mountedOn 500 (mkWindow 400 800)))
  = [false; true; true; false].
Proof.
  apply (C8_show_then_hide 500 (mountedOn 500 (mkWindow 400 800)) 600 600).
  - reflexivity.
  - reflexivity.
  - reflexivity.
  - lia.
  - lia.
Defined.

(** ** Claims about cancellation *)

(** What unmounting does undo: the listener is deregistered and the timer
    named by [_longPressTimeout] is gone. *)
Lemma unmount_cancels_named_timer delay c id :
  _longPressTimeout c = Some id ->
  let c' := step delay c WillUnmount in
  mounted c' = false /\
  changeListeners c' = remove_first SetChildrenPosition (changeListeners c) /\
  forall t, In t (timers c') -> timer_id t <> id.
Proof.
  intros Hh. simpl. unfold componentWillUnmount, _clearTimeouts. simpl.
  rewrite Hh. simpl. split; [reflexivity|]. split; [reflexivity|].
  intros t Hin. apply List.filter_In in Hin. destruct Hin as [_ Hne].
  apply negb_true_iff, Nat.eqb_neq in Hne. exact Hne.
Qed.

(** C1 at two failing inputs: timers that unmounting leaves pending.
    First: mount, unmount after 100 ms; the measurement timer set by
    [componentDidMount], whose handle was never kept, is still queued after
    the unmount, fires at 500 ms and asks [UIManager.measure] for the child
    of a destroyed component. Second: long press, release, touch again
    within the delay, unmount; the hide timer of the release is no longer
    named by [_longPressTimeout], is still queued after the unmount and
    fires. The updates the two closures then request are dropped by React,
    so the state itself stays as it was. *)
Theorem C1_timers_outlive_unmount :
  (let c := run 500 [RefSet (Some (mkChildRef (Some 7))); DidMount;
                     Elapse 100; WillUnmount] (initial win0) in
   mounted c = false /\
   changeListeners c = [] /\
   timers c = [mkTimer 1 500 (MeasureChildren 7)] /\
   timers (step 500 c (Elapse 400)) = [] /\
   measuring (step 500 c (Elapse 400)) = [7] /\
   state (run 500 [Elapse 400; Measured 48 48 16 32] c) = state c) /\
  (let c := run 500 [TouchStart; Elapse 600; TouchEndCapture; Elapse 100;
                     TouchStart; WillUnmount] (mountedOn 500 win0) in
   mounted c = false /\
   timers c = [mkTimer 3 1100 (HideTooltipIf true)] /\
   timers (step 500 c (Elapse 400)) = [] /\
   state (step 500 c (Elapse 400)) = state c).
Proof. vm_compute. repeat split. Qed.

(** C2 at a failing input: long press, release, touch again 100 ms later.
    The hide timer of the release and the show timer of the new touch are
    both pending, and both fire: [_handleTouchStart] sets its timer without
    clearing the one before. A second finger shows the same: of two show
    timers a touch cancel removes the later one only. *)
Theorem C2_two_timers_pending :
  (let c := run 500 [TouchStart; Elapse 600; TouchEndCapture; Elapse 100;
                     TouchStart] (mountedOn 500 win0) in
   pendingLongPress c
   = [mkTimer 3 1100 (HideTooltipIf true); mkTimer 4 1200 ShowTooltip] /\
   _longPressTimeout c = Some 4 /\
   map visible (trace 500 [Elapse 400; Elapse 100] c) = [false; true]) /\
  (let c := run 500 [TouchStart; Elapse 100; TouchStart] (mountedOn 500 win0) in
   pendingLongPress c
   = [mkTimer 2 500 ShowTooltip; mkTimer 3 600 ShowTooltip] /\
   map visible (trace 500 [TouchCancel; Elapse 400] c) = [false; true]).
Proof. vm_compute. repeat split. Qed.

(** ** Claim about [render] *)

(** C3, as stated, fails: an [onLongPress] passed to the wrapper is part
    of [rest], which is spread after the no-op. *)
Lemma C3_counterexample :
  option_map child_onLongPress
    (render 24 (mkProps [button]
                  {[ "title" := PString "Search"; "onLongPress" := PFunction 1 ]})
       initialState win0)
  <> Some (Some PNoop).
Proof. vm_compute. discriminate. Qed.

Lemma rest_of_onLongPress p :
  rest_of p !! "onLongPress" = attrs p !! "onLongPress".
Proof.
  unfold rest_of. rewrite !lookup_delete_ne by done. reflexivity.
Qed.

(** C3, amended. With a single child, the [onLongPress] the child receives
    is the no-op whenever the properties passed to the wrapper hold no
    [onLongPress] (the declared [Props] hold none), whatever the child's
    own was; an [onLongPress] passed to the wrapper is forwarded with the
    rest and takes the no-op's place. The [ref] is always the component's
    own. *)
Theorem C3_child_onLongPress sb p st win child :
  children p = [child] ->
  exists r,
    render sb p st win = Some r /\
    child_onLongPress r
    = Some (match attrs p !! "onLongPress" with
            | Some v => v
            | None => PNoop
            end) /\
    el_ref (r_child r) = Some PSetChildrenRef.
Proof.
  intros Hc. unfold render. rewrite Hc. simpl. eexists. split; [reflexivity|].
  unfold child_onLongPress, cloneElement, cloneConfig, spread. simpl. split.
  - rewrite lookup_union, !lookup_delete_ne, lookup_insert_ne by done.
    rewrite lookup_union, rest_of_onLongPress, lookup_insert_eq.
    destruct (attrs p !! "onLongPress") as [v|];
      destruct (el_props child !! "onLongPress"); reflexivity.
  - rewrite lookup_insert_eq. reflexivity.
Qed.

Lemma C3_child_onLongPress_witness :
  option_map child_onLongPress
    (render 24 (mkProps [button] {[ "title" := PString "Search" ]})
       initialState win0)
  = Some (Some PNoop).
Proof.
  destruct (C3_child_onLongPress 24
              (mkProps [button] {[ "title" := PString "Search" ]})
              initialState win0 button eq_refl) as (r & Hr & Ho & _).
  rewrite Hr. simpl. rewrite Ho. reflexivity.
Defined.

(** * Part III: further properties of the code *)

(** ** Which event touches which part of the state *)

Lemma state_elapse_obs {A} (obs : State -> A) ms c :
  (forall b s, obs (set_tooltipVisible b s) = obs s) ->
  obs (state (elapse ms c)) = obs (state c).
Proof.
  intros Hobs. unfold elapse.
  change (obs (state (run_timers (length (timers c)) (clock c + ms) c))
          = obs (state c)).
  apply (run_timers_ind (fun c' => obs (state c') = obs (state c)));
    [|reflexivity].
  intros c' t rest H _ _. rewrite <- H. unfold fire.
  destruct (timer_cb t) as [|[]|]; simpl; try reflexivity;
    unfold _showTooltip, _hideTooltip; rewrite state_setState;
    destruct (mounted _); try reflexivity; apply Hobs.
Qed.

(** Events other than a layout event and a measurement answer change the
    state through [tooltipVisible] only. *)
Lemma state_step_obs {A} (obs : State -> A) delay c e :
  (forall b s, obs (set_tooltipVisible b s) = obs s) ->
  is_Layout e = false -> is_Measured e = false ->
  obs (state (step delay c e)) = obs (state c).
Proof.
  intros Hobs HL HM. destruct e; try discriminate HL; try discriminate HM; simpl.
  - reflexivity.
  - unfold componentDidMount. rewrite state_setChildrenPosition. reflexivity.
  - unfold componentWillUnmount, _clearTimeouts. simpl.
    rewrite state_clearTimeout. reflexivity.
  - rewrite state_listeners. reflexivity.
  - reflexivity.
  - unfold _handleTouchEndCapture, _clearTimeouts. simpl.
    rewrite state_clearTimeout. reflexivity.
  - unfold _handleTouchCancel, _hideTooltip. rewrite state_setState.
    unfold _clearTimeouts. rewrite state_clearTimeout.
    destruct (mounted _); [apply Hobs | reflexivity].
  - apply state_elapse_obs. exact Hobs.
Qed.

Lemma layout_part_step delay c e :
  is_Layout e = false ->
  layout_part (state (step delay c e)) = layout_part (state c).
Proof.
  intros HL. destruct (is_Measured e) eqn:HM.
  - destruct e; try discriminate HM. simpl.
    destruct (measuring c); [reflexivity|].
    unfold measureCallback. rewrite state_setState.
    destruct (mounted _); reflexivity.
  - apply state_step_obs; [reflexivity | exact HL | exact HM].
Qed.

Lemma childrenLayout_step delay c e :
  is_Measured e = false ->
  childrenLayout (state (step delay c e)) = childrenLayout (state c).
Proof.
  intros HM. destruct (is_Layout e) eqn:HL.
  - destruct e; try discriminate HL. simpl. unfold _handleTooltipLayout.
    destruct (negb _); [|reflexivity].
    rewrite state_setState. destruct (mounted c); reflexivity.
  - apply (state_step_obs childrenLayout); [reflexivity | exact HL | exact HM].
Qed.

Lemma layout_consistent_step delay c e :
  layout_consistent (state c) -> layout_consistent (state (step delay c e)).
Proof.
  intros H. destruct (is_Layout e) eqn:HL.
  - destruct e; try discriminate HL. simpl. unfold _handleTooltipLayout.
    destruct (tooltipMeasured (state c)) eqn:E; simpl; [exact H|].
    rewrite state_setState. destruct (mounted c); [|exact H].
    unfold layout_consistent. simpl. reflexivity.
  - pose proof (layout_part_step delay c e HL) as Hp.
    unfold layout_part in Hp. inversion Hp as [[H1 H2 H3]].
    unfold layout_consistent in *. rewrite H1, H2, H3. exact H.
Qed.

Lemma layout_consistent_run delay es c :
  layout_consistent (state c) -> layout_consistent (state (run delay es c)).
Proof.
  revert c. induction es as [|e es IH]; intros c H; [exact H|].
  simpl. apply IH, layout_consistent_step, H.
Qed.

(** X5. In every state reached from the initial one, the opacity is 0.9
    once the tooltip has been measured; until then it is 0 and the tooltip
    rectangle is 0 x 0. *)
Theorem X5_opacity_follows_measured delay win es :
  let s := state (run delay es (initial win)) in
  (tooltipMeasured s = true -> tooltipOpacity s = 0.9%float) /\
  (tooltipMeasured s = false ->
   tooltipOpacity s = 0%float /\ tooltipLayout s = mkTooltipLayout 0 0).
Proof.
  cbv zeta.
  assert (H : layout_consistent (state (run delay es (initial win)))).
  { apply layout_consistent_run. unfold layout_consistent. simpl. split; reflexivity. }
  unfold layout_consistent in H.
  destruct (tooltipMeasured (state (run delay es (initial win))));
    split; intros E; try discriminate E; exact H.
Qed.

Lemma X5_opacity_follows_measured_witness :
  tooltipOpacity
    (state (run 500 [RefSet (Some (mkChildRef (Some 7))); DidMount; TouchStart;
                     Elapse 600; Layout 120 32; TouchEndCapture; Elapse 600]
              (initial win0)))
  = 0.9%float.
Proof.
  apply (proj1 (X5_opacity_follows_measured 500 win0
                  [RefSet (Some (mkChildRef (Some 7))); DidMount; TouchStart;
                   Elapse 600; Layout 120 32; TouchEndCapture; Elapse 600])).
  reflexivity.
Defined.

(** X6. The child rectangle changes only when a measurement in flight
    answers: every other event leaves it as it is, and an answer with no
    measurement in flight changes nothing at all. *)
Theorem X6_childrenLayout_frame delay c e :
  (is_Measured e = false ->
   childrenLayout (state (step delay c e)) = childrenLayout (state c)) /\
  (is_Measured e = true -> measuring c = [] -> step delay c e = c).
Proof.
  split.
  - apply childrenLayout_step.
  - intros HM Hm. destruct e; try discriminate HM. simpl. rewrite Hm. reflexivity.
Qed.

Lemma X6_childrenLayout_frame_witness :
  childrenLayout (state (step 500 (mountedOn 500 win0) (Elapse 600)))
  = childrenLayout (state (mountedOn 500 win0)) /\
  step 500 (mountedOn 500 win0) (Measured 48 48 16 32) = mountedOn 500 win0.
Proof.
  split.
  - apply (proj1 (X6_childrenLayout_frame 500 (mountedOn 500 win0) (Elapse 600))).
    reflexivity.
  - apply (proj2 (X6_childrenLayout_frame 500 (mountedOn 500 win0)
                    (Measured 48 48 16 32))).
    + reflexivity.
    + reflexivity.
Defined.

(** X7. Only a touch cancel and the passing of time (a timer firing) can
    change the visibility: no other event does, a touch start and a touch
    end included. *)
Theorem X7_visibility_frame delay c e :
  may_toggle e = false -> visible (step delay c e) = visible c.
Proof.
  intros Ht. destruct (is_Layout e) eqn:HL.
  - destruct e; try discriminate HL. apply visible_layout.
  - unfold visible. destruct (is_Measured e) eqn:HM.
    + destruct e; try discriminate HM. simpl.
      destruct (measuring c); [reflexivity|]. apply visible_measureCallback.
    + destruct e; try discriminate Ht; try discriminate HL; try discriminate HM;
        simpl.
      * reflexivity.
      * unfold componentDidMount. rewrite state_setChildrenPosition. reflexivity.
      * unfold componentWillUnmount, _clearTimeouts. simpl.
        rewrite state_clearTimeout. reflexivity.
      * rewrite state_listeners. reflexivity.
      * reflexivity.
      * unfold _handleTouchEndCapture, _clearTimeouts. simpl.
        rewrite state_clearTimeout. reflexivity.
Qed.

Lemma X7_visibility_frame_witness :
  visible (step 500 (mountedOn 500 win0) TouchStart)
  = visible (mountedOn 500 win0).
Proof.
  apply (X7_visibility_frame 500 (mountedOn 500 win0) TouchStart). reflexivity.
Defined.

(** ** The layout observer *)

Lemma measuring_run_callback cb c :
  measuring c <> [] -> measuring (run_callback cb c) <> [].
Proof.
  destruct cb as [|[]|target]; simpl;
    unfold _showTooltip, _hideTooltip; rewrite ?measuring_setState;
    try (intros H; exact H).
  intros _ E. apply app_eq_nil in E. destruct E as [_ E]. discriminate E.
Qed.

(** A measurement timer due within [ms] has asked for its measurement once
    [ms] have passed. *)
Lemma elapse_measures ms c t :
  In t (timers c) -> is_measure (timer_cb t) = true ->
  timer_due t <= clock c + ms ->
  measuring (elapse ms c) <> [].
Proof.
  intros Hin Hm Hdue.
  set (P := fun c' : Component => In t (timers c') \/ measuring c' <> []).
  set (c' := run_timers (length (timers c)) (clock c + ms) c).
  assert (HP : P c').
  { apply (run_timers_ind P); [|left; exact Hin].
    intros c0 u rest H0 Hpop _.
    destruct (pop_earliest_Some _ _ _ Hpop) as (_ & Hi & _).
    unfold P, fire. rewrite timers_run_callback.
    destruct H0 as [H0 | H0].
    - apply Hi in H0. destruct H0 as [-> | H0]; [right | left; exact H0].
      destruct (timer_cb u) as [| |target]; try discriminate Hm. simpl.
      intros E. apply app_eq_nil in E. destruct E as [_ E]. discriminate E.
    - right. apply measuring_run_callback. exact H0. }
  destruct HP as [HP | HP]; [|exact HP].
  apply (run_timers_complete (clock c + ms)) in HP; [lia | reflexivity].
Qed.

Lemma setChildrenPosition_schedules c element n :
  _children c = Some element -> findNodeHandle element = Some (S n) ->
  _setChildrenPosition c
  = fst (setTimeout (MeasureChildren (S n)) 500 c).
Proof.
  intros Hc Hh. unfold _setChildrenPosition. rewrite Hc, Hh. reflexivity.
Qed.

Lemma measured_stores w h px py c :
  mounted c = true ->
  measuring c <> [] ->
  childrenLayout (state (step 0 c (Measured w h px py)))
  = mkChildrenLayout px py w h.
Proof.
  intros Hm H. simpl. destruct (measuring c); [contradiction|].
  unfold measureCallback. rewrite state_setState. simpl. rewrite Hm.
  reflexivity.
Qed.

(** X8. Mounting on a child with a native handle measures it: once 500 ms
    or more have passed and the measurement answers, the child rectangle is
    the answer, page position and size. *)
Theorem X8_mount_measures delay c element n ms w h px py :
  _children c = Some element -> findNodeHandle element = Some (S n) ->
  500 <= ms ->
  childrenLayout
    (state (run delay [DidMount; Elapse ms; Measured w h px py] c))
  = mkChildrenLayout px py w h.
Proof.
  intros Hc Hh Hms.
  change (run delay [DidMount; Elapse ms; Measured w h px py] c)
    with (step 0 (elapse ms (componentDidMount c)) (Measured w h px py)).
  apply measured_stores.
  { rewrite mounted_elapse. unfold componentDidMount.
    rewrite (setChildrenPosition_schedules _ element n) by assumption.
    reflexivity. }
  unfold componentDidMount.
  rewrite (setChildrenPosition_schedules _ element n) by assumption.
  eapply elapse_measures with
    (t := mkTimer (nextTimerId c) (clock c + 500) (MeasureChildren (S n))).
  - simpl. apply in_or_app. right. left. reflexivity.
  - reflexivity.
  - simpl. lia.
Qed.

Lemma X8_mount_measures_witness :
  childrenLayout
    (state (run 500 [DidMount; Elapse 500; Measured 48 48 16 32]
              (step 500 (initial win0) (RefSet (Some (mkChildRef (Some 7)))))))
  = mkChildrenLayout 16 32 48 48.
Proof.
  apply (X8_mount_measures 500
           (step 500 (initial win0) (RefSet (Some (mkChildRef (Some 7)))))
           (mkChildRef (Some 7)) 6 500).
  - reflexivity.
  - reflexivity.
  - lia.
Defined.

Lemma window_elapse ms c : window (elapse ms c) = window c.
Proof.
  unfold elapse.
  change (window (run_timers (length (timers c)) (clock c + ms) c) = window c).
  apply (run_timers_ind (fun c' => window c' = window c)); [|reflexivity].
  intros c' t rest H _ _. rewrite <- H. unfold fire.
  destruct (timer_cb t) as [|[]|]; simpl; unfold _showTooltip, _hideTooltip;
    rewrite ?window_setState, ?changeListeners_setState; reflexivity.
Qed.

Lemma window_measured w h px py c :
  window (step 0 c (Measured w h px py)) = window c.
Proof.
  simpl. destruct (measuring c); [reflexivity|].
  unfold measureCallback. rewrite window_setState. reflexivity.
Qed.

(** X9. While the component is mounted and listens, a change of the window dimensions
    measures the child again: the new window is recorded, and once 500 ms or
    more have passed and the measurement answers, the child rectangle is
    the answer. *)
Theorem X9_dimension_change_measures delay c element n win ms w h px py :
  mounted c = true ->
  changeListeners c = [SetChildrenPosition] ->
  _children c = Some element -> findNodeHandle element = Some (S n) ->
  500 <= ms ->
  let c' := run delay [DimensionsChange win; Elapse ms; Measured w h px py] c in
  window c' = win /\
  childrenLayout (state c') = mkChildrenLayout px py w h.
Proof.
  intros Hm Hl Hc Hh Hms c'.
  assert (E : step delay c (DimensionsChange win)
              = fst (setTimeout (MeasureChildren (S n)) 500 (with_window win c))).
  { simpl. rewrite Hl. simpl.
    apply (setChildrenPosition_schedules (with_window win c) element n);
      assumption. }
  split.
  - change c' with (step 0 (elapse ms (step delay c (DimensionsChange win)))
                      (Measured w h px py)).
    rewrite window_measured, window_elapse, E. reflexivity.
  - change c' with (step 0 (elapse ms (step delay c (DimensionsChange win)))
                      (Measured w h px py)).
    apply measured_stores; [rewrite mounted_elapse, E; exact Hm|]. rewrite E.
    eapply elapse_measures with
      (t := mkTimer (nextTimerId c) (clock c + 500) (MeasureChildren (S n))).
    + simpl. apply in_or_app. right. left. reflexivity.
    + reflexivity.
    + simpl. lia.
Qed.

Lemma X9_dimension_change_measures_witness :
  childrenLayout
    (state (run 500 [DimensionsChange (mkWindow 800 400); Elapse 700;
                     Measured 48 48 316 32] (mountedOn 500 win0)))
  = mkChildrenLayout 316 32 48 48.
Proof.
  apply (X9_dimension_change_measures 500 (mountedOn 500 win0)
           (mkChildRef (Some 7)) 6 (mkWindow 800 400) 700).
  - reflexivity.
  - reflexivity.
  - reflexivity.
  - reflexivity.
  - lia.
Defined.

Lemma no_handle_setChildrenPosition c :
  no_handle c -> _setChildrenPosition c = c.
Proof.
  unfold no_handle, _setChildrenPosition.
  destruct (_children c) as [el|]; [|reflexivity].
  destruct (findNodeHandle el) as [[|n]|]; intros H;
    [reflexivity | destruct H | reflexivity].
Qed.

Lemma no_handle_listeners ls c :
  no_handle c ->
  fold_left (fun acc l => call_listener l acc) ls c = c.
Proof.
  intros H. induction ls as [|[] ls IH]; [reflexivity|].
  simpl. rewrite (no_handle_setChildrenPosition c H). exact IH.
Qed.

(** X10. Without a usable native handle (no child reference, or a handle
    that is [null] or 0) no measurement is requested: mounting only
    registers the listener, and a change of dimensions only records the new
    window, whatever number of listeners is registered. *)
Theorem X10_no_handle_no_measurement delay c win :
  no_handle c ->
  step delay c DidMount
  = addEventListener SetChildrenPosition (with_mounted true c) /\
  step delay c (DimensionsChange win) = with_window win c.
Proof.
  intros H. split.
  - simpl. unfold componentDidMount.
    apply no_handle_setChildrenPosition. exact H.
  - simpl. apply (no_handle_listeners _ (with_window win c)). exact H.
Qed.

Lemma X10_no_handle_no_measurement_witness :
  let c := run 500 [RefSet (Some (mkChildRef (Some 0))); DidMount] (initial win0) in
  step 500 c (DimensionsChange (mkWindow 800 400))
  = with_window (mkWindow 800 400) c.
Proof.
  cbv zeta.
  apply (X10_no_handle_no_measurement 500
           (run 500 [RefSet (Some (mkChildRef (Some 0))); DidMount] (initial win0))
           (mkWindow 800 400)).
  vm_compute. exact I.
Defined.

(** ** Mount and unmount *)

Lemma changeListeners_elapse ms c :
  changeListeners (elapse ms c) = changeListeners c.
Proof.
  unfold elapse.
  change (changeListeners (run_timers (length (timers c)) (clock c + ms) c)
          = changeListeners c).
  apply (run_timers_ind (fun c' => changeListeners c' = changeListeners c));
    [|reflexivity].
  intros c' t rest H _ _. rewrite <- H. unfold fire.
  destruct (timer_cb t) as [|[]|]; simpl; unfold _showTooltip, _hideTooltip;
    rewrite ?window_setState, ?changeListeners_setState; reflexivity.
Qed.

(** Only the two lifecycle hooks register and deregister. *)
Lemma changeListeners_step delay c e :
  is_lifecycle e = false ->
  changeListeners (step delay c e) = changeListeners c.
Proof.
  intros He. destruct e; try discriminate He; simpl.
  - reflexivity.
  - apply (listeners_ind (fun c' => changeListeners c' = changeListeners c));
      [|reflexivity].
    intros c' target H. exact H.
  - reflexivity.
  - unfold _handleTouchEndCapture, _clearTimeouts, clearTimeout.
    destruct (_longPressTimeout c); reflexivity.
  - unfold _handleTouchCancel, _hideTooltip.
    rewrite changeListeners_setState. unfold _clearTimeouts, clearTimeout.
    destruct (_longPressTimeout c); reflexivity.
  - unfold _handleTooltipLayout.
    destruct (negb _); [apply changeListeners_setState | reflexivity].
  - destruct (measuring c); [reflexivity|].
    unfold measureCallback. rewrite changeListeners_setState. reflexivity.
  - apply changeListeners_elapse.
Qed.

Lemma changeListeners_run delay es c :
  forallb (fun e => negb (is_lifecycle e)) es = true ->
  changeListeners (run delay es c) = changeListeners c.
Proof.
  revert c. induction es as [|e es IH]; intros c H; [reflexivity|].
  simpl in H. apply andb_prop in H. destruct H as [He Hes].
  simpl. rewrite (IH _ Hes). apply changeListeners_step.
  apply negb_true_iff. exact He.
Qed.

(** X11. A component that was not listening, is mounted and later
    unmounted is not listening afterwards, whatever happened in between: a
    change of the window dimensions after the unmount records the new
    window and does nothing else, so no measurement is requested for the
    destroyed component. *)
Theorem X11_unmount_stops_listening delay c es win :
  changeListeners c = [] ->
  forallb (fun e => negb (is_lifecycle e)) es = true ->
  let c' := run delay (DidMount :: es ++ [WillUnmount]) c in
  mounted c' = false /\
  changeListeners c' = [] /\
  step delay c' (DimensionsChange win) = with_window win c'.
Proof.
  intros Hl Hes c'.
  assert (Hc' : c' = componentWillUnmount (run delay es (componentDidMount c))).
  { unfold c', run. simpl. rewrite fold_left_app. reflexivity. }
  assert (Hls : changeListeners (run delay es (componentDidMount c))
                = [SetChildrenPosition]).
  { rewrite (changeListeners_run _ _ _ Hes). unfold componentDidMount.
    destruct (setChildrenPosition_cases
                (addEventListener SetChildrenPosition (with_mounted true c)))
      as [-> | [target ->]]; simpl; rewrite Hl; reflexivity. }
  assert (Hl' : changeListeners c' = []).
  { rewrite Hc'. unfold componentWillUnmount, _clearTimeouts, clearTimeout. simpl.
    destruct (_longPressTimeout _); simpl; rewrite Hls; reflexivity. }
  split; [rewrite Hc'; reflexivity|]. split; [exact Hl'|].
  simpl. rewrite Hl'. reflexivity.
Qed.

Lemma X11_unmount_stops_listening_witness :
  let c' := run 500 [DidMount; TouchStart; Elapse 600; WillUnmount]
              (step 500 (initial win0) (RefSet (Some (mkChildRef (Some 7))))) in
  step 500 c' (DimensionsChange (mkWindow 800 400))
  = with_window (mkWindow 800 400) c'.
Proof.
  cbv zeta.
  apply (X11_unmount_stops_listening 500
           (step 500 (initial win0) (RefSet (Some (mkChildRef (Some 7)))))
           [TouchStart; Elapse 600] (mkWindow 800 400)).
  - reflexivity.
  - reflexivity.
Defined.

(** X12. Unmounting cancels the timer [_longPressTimeout] names: no timer
    with that handle is left, the component is marked unmounted and one
    registration of the listener is removed. *)
Theorem X12_unmount_cancels_named delay c id :
  _longPressTimeout c = Some id ->
  let c' := step delay c WillUnmount in
  mounted c' = false /\
  changeListeners c' = remove_first SetChildrenPosition (changeListeners c) /\
  (forall t, In t (timers c') -> timer_id t <> id) /\
  (forall t, In t (timers c') -> In t (timers c)).
Proof.
  intros Hh. simpl. unfold componentWillUnmount, _clearTimeouts. simpl.
  rewrite Hh. simpl. split; [reflexivity|]. split; [reflexivity|]. split.
  - intros t Hin. apply List.filter_In in Hin. destruct Hin as [_ Hne].
    apply negb_true_iff, Nat.eqb_neq in Hne. exact Hne.
  - intros t Hin. apply List.filter_In in Hin. tauto.
Qed.

Lemma X12_unmount_cancels_named_witness :
  timers (step 500 (run 500 [Elapse 600; TouchStart] (mountedOn 500 win0))
            WillUnmount) = [].
Proof.
  pose proof (X12_unmount_cancels_named 500
                (run 500 [Elapse 600; TouchStart] (mountedOn 500 win0)) 2
                eq_refl) as H.
  cbv zeta in H. destruct H as (_ & _ & H & _).
  destruct (timers (step 500 (run 500 [Elapse 600; TouchStart]
                                (mountedOn 500 win0)) WillUnmount))
    as [|t ts] eqn:E; [reflexivity|].
  exfalso. apply (H t (or_introl eq_refl)).
  vm_compute in E. discriminate E.
Defined.

(** ** Taps, long presses and releases *)

(** A touch end on an armed component cancels the show timer and sets a
    hide timer that will do nothing. *)
Lemma armed_touchEnd handle due delay c :
  armed handle due c ->
  visible (_handleTouchEndCapture delay c) = false /\
  showPending (_handleTouchEndCapture delay c) = [].
Proof.
  intros Ha. pose proof (armed_clearTimeouts handle due c Ha) as Hs.
  destruct Ha as [Hv _]. unfold _handleTouchEndCapture. split.
  - unfold visible. simpl. unfold _clearTimeouts. rewrite state_clearTimeout.
    exact Hv.
  - unfold showPending, pendingBy in *. simpl.
    rewrite List.filter_app, Hs. unfold visible in Hv. rewrite Hv. reflexivity.
Qed.

(** X13. A tap never shows the tooltip. From a hidden tooltip with no show
    timer pending, a touch start followed by a touch end before
    [delayLongPress] has elapsed leaves the tooltip hidden: in between,
    whatever else happens there, and afterwards, whatever follows short of
    a new touch start. *)
Theorem X13_tap_never_shows delay c mid es :
  visible c = false -> showPending c = [] ->
  forallb (fun e => negb (is_TouchStart e)) mid = true ->
  waits mid < delay ->
  forallb (fun e => negb (is_TouchStart e)) es = true ->
  Forall (fun c' => visible c' = false)
         (trace delay (TouchStart :: mid ++ TouchEndCapture :: es) c).
Proof.
  intros Hv Hs Hmid Hw Hes.
  set (c1 := step delay c TouchStart).
  assert (Ha1 : armed (nextTimerId c) (clock c + delay) c1).
  { split; [exact Hv|]. intros t Hin E. unfold c1 in Hin. simpl in Hin.
    apply in_app_or in Hin. destruct Hin as [Hin|[<-|[]]].
    - rewrite (proj1 (filter_nil _ _) Hs t Hin) in E. discriminate.
    - simpl. split; [reflexivity|]. split; [lia | reflexivity]. }
  destruct (armed_trace (nextTimerId c) (clock c + delay) delay mid c1 Hmid)
    as [Ha2 Hf2]; [change (clock c1) with (clock c); lia | exact Ha1 |].
  destruct (armed_touchEnd _ _ delay _ Ha2) as [Hv3 Hs3].
  change (trace delay (TouchStart :: mid ++ TouchEndCapture :: es) c)
    with (c1 :: trace delay (mid ++ TouchEndCapture :: es) c1).
  constructor; [exact Hv|].
  rewrite trace_app. apply Forall_app. split; [exact Hf2|].
  change (Forall (fun c' => visible c' = false)
            (_handleTouchEndCapture delay (run delay mid c1)
             :: trace delay es (_handleTouchEndCapture delay (run delay mid c1)))).
  constructor; [exact Hv3|]. apply hidden_idle_trace; assumption.
Qed.

Lemma X13_tap_never_shows_witness :
  Forall (fun c' => visible c' = false)
    (trace 500 [TouchStart; Elapse 120; TouchEndCapture; Elapse 1000;
                Layout 120 32; Elapse 1000] (mountedOn 500 win0)).
Proof.
  apply (X13_tap_never_shows 500 (mountedOn 500 win0) [Elapse 120]
           [Elapse 1000; Layout 120 32; Elapse 1000]).
  - reflexivity.
  - reflexivity.
  - reflexivity.
  - simpl. lia.
  - reflexivity.
Defined.

Section Single.

(** The one show/hide timer pending, and the visibility when it was set. *)
Variables (t0 : timer) (v0 : bool).
Hypothesis t0_longPress : is_longPress (timer_cb t0) = true.

Local Abbreviation sing := (single t0 v0).

(** [single] reads the mounted flag, the timers, the clock and the
    visibility only. *)
Lemma single_frame c c' :
  mounted c' = true -> timers c' = timers c -> clock c' = clock c ->
  visible c' = visible c -> sing c -> sing c'.
Proof.
  intros Hm Ht Hc Hv (_ & Ho & Hd). unfold single.
  rewrite Ht, Hc, Hv. split; [exact Hm|]. split; assumption.
Qed.

Lemma single_setTimeout target c :
  sing c -> sing (fst (setTimeout (MeasureChildren target) 500 c)).
Proof.
  intros (Hm & Ho & Hd). split; [exact Hm|]. split.
  - intros t Hin Hl. simpl in Hin. apply in_app_or in Hin.
    destruct Hin as [Hin|[<-|[]]]; [exact (Ho t Hin Hl) | discriminate Hl].
  - destruct Hd as [(Hi & Hc & Hv) | Hv]; [left | right; exact Hv].
    split; [|split; assumption]. simpl. apply in_or_app. left. exact Hi.
Qed.

Lemma single_elapse ms c : sing c -> sing (elapse ms c).
Proof.
  intros Hs.
  set (P := fun c' : Component =>
    mounted c' = true /\
    (forall t, In t (timers c') -> is_longPress (timer_cb t) = true -> t = t0) /\
    ((In t0 (timers c') /\ visible c' = v0) \/
     visible c' = after_callback (timer_cb t0) v0)).
  set (c' := run_timers (length (timers c)) (clock c + ms) c).
  assert (HP : P c').
  { apply (run_timers_ind P).
    - intros c1 t rest (Hm1 & Ho & Hd) Hpop _.
      destruct (pop_earliest_Some _ _ _ Hpop) as (_ & Hin & _).
      split; [unfold fire; rewrite mounted_run_callback; exact Hm1|].
      split.
      + intros u Hu. rewrite timers_fire in Hu. apply Ho. apply Hin. right. exact Hu.
      + unfold fire.
        rewrite visible_run_callback, timers_run_callback by exact Hm1.
        change (visible (with_clock (Nat.max (clock c1) (timer_due t))
                           (with_timers rest c1))) with (visible c1).
        change (timers (with_clock (Nat.max (clock c1) (timer_due t))
                          (with_timers rest c1))) with rest.
        destruct (is_longPress (timer_cb t)) eqn:El.
        * right. rewrite (Ho t (proj2 (Hin t) (or_introl eq_refl)) El).
          destruct Hd as [[_ ->] | ->]; [reflexivity | apply after_callback_idem].
        * rewrite (after_callback_other _ _ El).
          destruct Hd as [[Hi Hv] | Hv]; [left | right; exact Hv].
          split; [|exact Hv]. apply Hin in Hi. destruct Hi as [->|Hi]; [|exact Hi].
          congruence.
    - destruct Hs as (Hm & Ho & Hd). split; [exact Hm|]. split; [exact Ho|].
      destruct Hd as [(Hi & _ & Hv) | Hv]; [left; split; assumption | right; exact Hv]. }
  destruct HP as (Hm & Ho & Hd). split; [exact Hm|]. split; [exact Ho|].
  destruct Hd as [[Hi Hv] | Hv]; [left | right; exact Hv].
  split; [exact Hi|]. split; [|exact Hv].
  apply (run_timers_complete (clock c + ms)) in Hi; [|reflexivity].
  simpl. lia.
Qed.

Lemma single_step delay c e :
  is_passive e = true -> sing c -> sing (step delay c e).
Proof.
  intros He Hs. destruct e; try discriminate He; simpl.
  - exact Hs.
  - unfold componentDidMount.
    assert (Hs' : sing (addEventListener SetChildrenPosition (with_mounted true c)))
      by (apply (single_frame c); [reflexivity .. | exact Hs]).
    destruct (setChildrenPosition_cases
                (addEventListener SetChildrenPosition (with_mounted true c)))
      as [-> | [target ->]]; [exact Hs'|].
    apply single_setTimeout. exact Hs'.
  - apply listeners_ind; [|exact Hs].
    intros c' target H. apply single_setTimeout. exact H.
  - apply (single_frame c); [| | | | exact Hs].
    + unfold _handleTooltipLayout.
      destruct (negb _); [rewrite mounted_setState|]; exact (proj1 Hs).
    + apply timers_layout.
    + unfold _handleTooltipLayout.
      destruct (negb _); [apply clock_setState | reflexivity].
    + apply visible_layout.
  - destruct (measuring c); [exact Hs|].
    apply (single_frame c); [| | | | exact Hs]; unfold measureCallback.
    + rewrite mounted_setState. exact (proj1 Hs).
    + rewrite timers_setState. reflexivity.
    + rewrite clock_setState. reflexivity.
    + fold (measureCallback width height pageX pageY (with_measuring l c)).
      rewrite visible_measureCallback. reflexivity.
  - apply single_elapse. exact Hs.
Qed.

Lemma single_run delay es c :
  forallb is_passive es = true -> sing c -> sing (run delay es c).
Proof.
  revert c. induction es as [|e es IH]; intros c Hes Hs; [exact Hs|].
  simpl in Hes. apply andb_prop in Hes. destruct Hes as [He Hes].
  simpl. apply IH; [exact Hes|]. apply single_step; assumption.
Qed.

Lemma clock_run delay es c : clock (run delay es c) = clock c + waits es.
Proof.
  revert c. induction es as [|e es IH]; intros c; simpl; [lia|].
  change (fold_left (step delay) es (step delay c e))
    with (run delay es (step delay c e)).
  rewrite IH, clock_step. lia.
Qed.

(** Once the clock has passed the due time of [t0], its closure has run. *)
Lemma single_overdue delay es c :
  forallb is_passive es = true -> sing c ->
  timer_due t0 < clock c + waits es ->
  visible (run delay es c) = after_callback (timer_cb t0) v0.
Proof.
  intros Hes Hs Hlate.
  destruct (single_run delay es c Hes Hs) as (_ & _ & [(_ & Hc & _) | Hv]);
    [|exact Hv].
  rewrite clock_run in Hc. lia.
Qed.

End Single.

(** X14. A long press shows the tooltip and it stays shown. On a mounted
    component with no show/hide timer pending, after a touch start and any events that are
    neither touches nor the unmount, the tooltip is visible as soon as more
    than [delayLongPress] has elapsed. *)
Theorem X14_long_press_shows delay c es :
  mounted c = true ->
  pendingLongPress c = [] ->
  forallb is_passive es = true ->
  delay < waits es ->
  visible (run delay (TouchStart :: es) c) = true.
Proof.
  intros Hm Hp Hes Hw.
  pose proof (proj1 (filter_nil _ _) Hp) as Hnone. simpl in Hnone.
  set (t0 := mkTimer (nextTimerId c) (clock c + delay) ShowTooltip).
  change (run delay (TouchStart :: es) c)
    with (run delay es (_handleTouchStart delay c)).
  apply (single_overdue t0 (visible c) eq_refl delay es); [exact Hes | |].
  - split; [exact Hm|]. split.
    + intros t Hin Hl. simpl in Hin. apply in_app_or in Hin.
      destruct Hin as [Hin|[<-|[]]]; [|reflexivity].
      rewrite (Hnone t Hin) in Hl. discriminate.
    + left. split; [simpl; apply in_or_app; right; left; reflexivity|].
      split; [simpl; lia | reflexivity].
  - simpl. lia.
Qed.

Lemma X14_long_press_shows_witness :
  visible (run 500 [TouchStart; Elapse 300; Measured 48 48 16 32; Elapse 300;
                    Layout 120 32; Elapse 5000] (mountedOn 500 win0)) = true.
Proof.
  apply (X14_long_press_shows 500 (mountedOn 500 win0)
           [Elapse 300; Measured 48 48 16 32; Elapse 300; Layout 120 32;
            Elapse 5000]).
  - reflexivity.
  - reflexivity.
  - reflexivity.
  - simpl. lia.
Defined.

(** X15. A release hides the tooltip. On a mounted component with no
    show/hide timer pending,
    after a touch end and any events that are neither touches nor the
    unmount, the tooltip is hidden as soon as more than [delayLongPress]
    has elapsed. *)
Theorem X15_release_hides delay c es :
  mounted c = true ->
  pendingLongPress c = [] ->
  forallb is_passive es = true ->
  delay < waits es ->
  visible (run delay (TouchEndCapture :: es) c) = false.
Proof.
  intros Hm Hp Hes Hw.
  pose proof (proj1 (filter_nil _ _) Hp) as Hnone. simpl in Hnone.
  set (c1 := _handleTouchEndCapture delay c).
  set (t1 := mkTimer (nextTimerId c) (clock c + delay)
               (HideTooltipIf (visible c))).
  assert (Ht : exists kept,
             timers c1 = kept ++ [t1] /\ forall t, In t kept -> In t (timers c)).
  { unfold c1, _handleTouchEndCapture, _clearTimeouts, clearTimeout, t1, visible.
    destruct (_longPressTimeout c) as [id|]; simpl.
    - eexists. split; [reflexivity|].
      intros t Hin. apply List.filter_In in Hin. tauto.
    - eexists. split; [reflexivity|]. tauto. }
  destruct Ht as (kept & Hts & Hkept).
  assert (Hclk : clock c1 = clock c).
  { unfold c1, _handleTouchEndCapture, _clearTimeouts, clearTimeout.
    destruct (_longPressTimeout c); reflexivity. }
  assert (Hv1 : visible c1 = visible c).
  { unfold c1, visible, _handleTouchEndCapture, _clearTimeouts. simpl.
    rewrite state_clearTimeout. reflexivity. }
  change (run delay (TouchEndCapture :: es) c) with (run delay es c1).
  rewrite (single_overdue t1 (visible c) eq_refl delay es c1); [| exact Hes | |].
  - simpl. destruct (visible c); reflexivity.
  - split; [|split].
    + unfold c1, _handleTouchEndCapture, _clearTimeouts, clearTimeout.
      destruct (_longPressTimeout c); exact Hm.
    + intros t Hin Hl. rewrite Hts in Hin. apply in_app_or in Hin.
      destruct Hin as [Hin|[<-|[]]]; [|reflexivity].
      rewrite (Hnone t (Hkept t Hin)) in Hl. discriminate.
    + left. split; [rewrite Hts; apply in_or_app; right; left; reflexivity|].
      split; [rewrite Hclk; simpl; lia | exact Hv1].
  - rewrite Hclk. simpl. lia.
Qed.

Lemma X15_release_hides_witness :
  let c := run 500 [TouchStart; Elapse 600; Layout 120 32] (mountedOn 500 win0) in
  visible c = true /\
  visible (run 500 [TouchEndCapture; Elapse 200; Layout 120 32; Elapse 400] c)
  = false.
Proof.
  cbv zeta. split; [reflexivity|].
  apply (X15_release_hides 500
           (run 500 [TouchStart; Elapse 600; Layout 120 32] (mountedOn 500 win0))
           [Elapse 200; Layout 120 32; Elapse 400]).
  - reflexivity.
  - reflexivity.
  - reflexivity.
  - simpl. lia.
Defined.

(** ** Timer handles *)

Lemma pop_earliest_perm ts t rest :
  pop_earliest ts = Some (t, rest) -> Permutation ts (t :: rest).
Proof.
  revert t rest. induction ts as [|a ts IH]; intros t rest H; [discriminate|].
  simpl in H. destruct (pop_earliest ts) as [[u r]|] eqn:E.
  - destruct (Nat.leb (timer_due a) (timer_due u)); inversion H; subst.
    + apply Permutation_refl.
    + eapply perm_trans; [apply perm_skip, IH; reflexivity | apply perm_swap].
  - apply pop_earliest_None in E. subst ts. inversion H; subst.
    apply Permutation_refl.
Qed.

Lemma NoDup_map_filter {A B} (g : A -> B) (f : A -> bool) (l : list A) :
  List.NoDup (map g l) -> List.NoDup (map g (List.filter f l)).
Proof.
  induction l as [|a l IH]; intros H; [exact H|].
  simpl in H. inversion H as [|x xs Hnotin Hnd]; subst.
  simpl. destruct (f a); [|apply IH; exact Hnd].
  simpl. constructor; [|apply IH; exact Hnd].
  intros Hin. apply Hnotin. apply in_map_iff in Hin.
  destruct Hin as (y & Hy & Hyin). apply List.filter_In in Hyin.
  apply in_map_iff. exists y. tauto.
Qed.

Lemma fresh_setTimeout cb ms c :
  handles_fresh c -> handles_fresh (fst (setTimeout cb ms c)).
Proof.
  intros [Hnd Hlt]. split; simpl.
  - rewrite map_app. simpl.
    apply (Permutation_NoDup
             (Permutation_cons_append (map timer_id (timers c)) (nextTimerId c))).
    constructor; [|exact Hnd].
    intros Hin. apply in_map_iff in Hin. destruct Hin as (t & Ht & Hin).
    specialize (Hlt t Hin). lia.
  - intros t Hin. apply in_app_or in Hin. destruct Hin as [Hin|[<-|[]]].
    + specialize (Hlt t Hin). lia.
    + simpl. lia.
Qed.

Lemma fresh_clearTimeout h c :
  handles_fresh c -> handles_fresh (clearTimeout h c).
Proof.
  intros [Hnd Hlt]. destruct h as [id|]; [|split; assumption].
  split; simpl.
  - apply NoDup_map_filter. exact Hnd.
  - intros t Hin. apply List.filter_In in Hin. apply Hlt. tauto.
Qed.

Lemma fresh_fire t rest c :
  pop_earliest (timers c) = Some (t, rest) ->
  handles_fresh c -> handles_fresh (fire t rest c).
Proof.
  intros Hpop [Hnd Hlt].
  pose proof (pop_earliest_perm _ _ _ Hpop) as Hperm.
  assert (Hnd' : List.NoDup (map timer_id rest)).
  { apply (Permutation_map timer_id) in Hperm.
    apply (Permutation_NoDup Hperm) in Hnd. simpl in Hnd.
    inversion Hnd; assumption. }
  assert (Hlt' : forall u, In u rest -> timer_id u < nextTimerId c).
  { intros u Hu. apply Hlt.
    destruct (pop_earliest_Some _ _ _ Hpop) as (_ & Hin & _).
    apply Hin. right. exact Hu. }
  unfold fire, handles_fresh.
  rewrite timers_run_callback, nextTimerId_run_callback. split; assumption.
Qed.

Lemma fresh_setState g c : handles_fresh c -> handles_fresh (setState g c).
Proof.
  unfold handles_fresh. rewrite timers_setState, nextTimerId_setState. tauto.
Qed.

Lemma fresh_step delay c e :
  handles_fresh c -> handles_fresh (step delay c e).
Proof.
  intros H. destruct e; simpl.
  - exact H.
  - unfold componentDidMount.
    destruct (setChildrenPosition_cases
                (addEventListener SetChildrenPosition (with_mounted true c)))
      as [-> | [target ->]]; [exact H|].
    apply fresh_setTimeout. exact H.
  - exact (fresh_clearTimeout (_longPressTimeout c)
             (removeEventListener SetChildrenPosition c) H).
  - apply listeners_ind; [|exact H].
    intros c' target H'. apply fresh_setTimeout. exact H'.
  - exact (fresh_setTimeout ShowTooltip delay c H).
  - exact (fresh_setTimeout (HideTooltipIf (tooltipVisible (state c))) delay
             (_clearTimeouts c) (fresh_clearTimeout _ c H)).
  - apply fresh_setState.
    exact (fresh_clearTimeout (_longPressTimeout c) c H).
  - unfold _handleTooltipLayout.
    destruct (negb _); [apply fresh_setState|]; exact H.
  - destruct (measuring c); [exact H|]. apply fresh_setState. exact H.
  - unfold elapse.
    assert (H' : handles_fresh
                   (run_timers (length (timers c)) (clock c + ms) c)).
    { apply (run_timers_ind handles_fresh); [|exact H].
      intros c' t rest Hc' Hpop _. apply fresh_fire; assumption. }
    exact H'.
Qed.

Lemma fresh_run delay es c :
  handles_fresh c -> handles_fresh (run delay es c).
Proof.
  revert c. induction es as [|e es IH]; intros c H; [exact H|].
  simpl. apply IH, fresh_step, H.
Qed.

Lemma fresh_initial win : handles_fresh (initial win).
Proof. split; [constructor | intros t []]. Qed.

Lemma filter_keeps_all (id : nat) (ts : list timer) :
  ~ In id (map timer_id ts) ->
  List.filter (fun t => negb (Nat.eqb (timer_id t) id)) ts = ts.
Proof.
  induction ts as [|a ts IH]; intros H; [reflexivity|].
  simpl in *. destruct (Nat.eqb (timer_id a) id) eqn:E.
  - apply Nat.eqb_eq in E. exfalso. apply H. left. exact E.
  - simpl. rewrite IH; [reflexivity|]. intros Hin. apply H. right. exact Hin.
Qed.

Lemma filter_drops_one (id : nat) (ts : list timer) :
  List.NoDup (map timer_id ts) ->
  length ts
  <= S (length (List.filter (fun t => negb (Nat.eqb (timer_id t) id)) ts)).
Proof.
  induction ts as [|a ts IH]; intros H; [simpl; lia|].
  simpl in H. inversion H as [|x xs Hnotin Hnd]; subst.
  simpl. destruct (Nat.eqb (timer_id a) id) eqn:E; simpl.
  - apply Nat.eqb_eq in E. rewrite E in Hnotin.
    rewrite (filter_keeps_all id ts Hnotin). lia.
  - specialize (IH Hnd). lia.
Qed.

(** X16. In every state reached from the initial one the handles of the
    pending timers are pairwise distinct and older than the next handle,
    so [_clearTimeouts] cancels at most one timer: every other pending
    timer, the measurement timer included, stays. *)
Theorem X16_clearTimeouts_cancels_at_most_one delay win es :
  let c := run delay es (initial win) in
  handles_fresh c /\
  length (timers c) <= S (length (timers (_clearTimeouts c))) /\
  (forall t, In t (timers c) -> is_measure (timer_cb t) = true ->
             _longPressTimeout c <> Some (timer_id t) ->
             In t (timers (_clearTimeouts c))).
Proof.
  cbv zeta. set (c := run delay es (initial win)).
  assert (H : handles_fresh c) by (apply fresh_run, fresh_initial).
  split; [exact H|]. unfold _clearTimeouts, clearTimeout.
  destruct (_longPressTimeout c) as [id|]; simpl.
  - split; [apply filter_drops_one; exact (proj1 H)|].
    intros t Hin _ Hne. apply List.filter_In. split; [exact Hin|].
    apply negb_true_iff, Nat.eqb_neq. congruence.
  - split; [lia|]. intros t Hin _ _. exact Hin.
Qed.

(** ** One timer at a time, when touches wait for it *)

Lemma named_setTimeout target c :
  named c -> named (fst (setTimeout (MeasureChildren target) 500 c)).
Proof.
  intros H t Hin Hl. simpl in Hin. apply in_app_or in Hin.
  destruct Hin as [Hin|[<-|[]]]; [exact (H t Hin Hl) | discriminate Hl].
Qed.

(** After [_clearTimeouts] no show/hide timer is left of a component whose
    show/hide timers are all named. *)
Lemma named_clearTimeouts c :
  named c -> pendingLongPress (_clearTimeouts c) = [].
Proof.
  intros H. unfold pendingLongPress. apply filter_nil.
  intros t Hin. destruct (is_longPress (timer_cb t)) eqn:E; [|reflexivity].
  exfalso. unfold _clearTimeouts, clearTimeout in Hin.
  destruct (_longPressTimeout c) as [id|] eqn:Hh.
  - simpl in Hin. apply List.filter_In in Hin. destruct Hin as [Hin Hne].
    pose proof (H t Hin E) as Hn. rewrite Hh in Hn. inversion Hn; subst id.
    rewrite Nat.eqb_refl in Hne. discriminate.
  - pose proof (H t Hin E) as Hn. rewrite Hh in Hn. discriminate.
Qed.

Lemma idle_named c : pendingLongPress c = [] -> named c.
Proof.
  intros Hp t Hin Hl.
  rewrite (proj1 (filter_nil _ _) Hp t Hin) in Hl. discriminate.
Qed.

Lemma named_setState g c : named c -> named (setState g c).
Proof.
  intros H t Hin Hl. rewrite timers_setState in Hin.
  rewrite longPressTimeout_setState. exact (H t Hin Hl).
Qed.

Lemma named_step delay c e :
  (is_TouchStart e = true -> pendingLongPress c = []) ->
  named c -> named (step delay c e).
Proof.
  intros Hts H. destruct e; simpl.
  - exact H.
  - unfold componentDidMount.
    destruct (setChildrenPosition_cases
                (addEventListener SetChildrenPosition (with_mounted true c)))
      as [-> | [target ->]]; [exact H|].
    apply named_setTimeout. exact H.
  - apply idle_named.
    exact (named_clearTimeouts (removeEventListener SetChildrenPosition c) H).
  - apply listeners_ind; [|exact H].
    intros c' target H'. apply named_setTimeout. exact H'.
  - specialize (Hts eq_refl). intros t Hin Hl. simpl in Hin.
    apply in_app_or in Hin. destruct Hin as [Hin|[<-|[]]]; [|reflexivity].
    rewrite (proj1 (filter_nil _ _) Hts t Hin) in Hl. discriminate.
  - pose proof (named_clearTimeouts c H) as Hp.
    intros t Hin Hl. unfold _handleTouchEndCapture in Hin. simpl in Hin.
    apply in_app_or in Hin. destruct Hin as [Hin|[<-|[]]]; [|reflexivity].
    rewrite (proj1 (filter_nil _ _) Hp t Hin) in Hl. discriminate.
  - apply named_setState, idle_named. exact (named_clearTimeouts c H).
  - unfold _handleTooltipLayout.
    destruct (negb _); [apply named_setState|]; exact H.
  - destruct (measuring c); [exact H|]. apply named_setState. exact H.
  - unfold elapse.
    assert (H' : named (run_timers (length (timers c)) (clock c + ms) c)).
    { apply (run_timers_ind named); [|exact H].
      intros c' t rest Hc' Hpop _.
      destruct (pop_earliest_Some _ _ _ Hpop) as (_ & Hin & _).
      intros u Hu Hl. rewrite timers_fire in Hu.
      pose proof (Hc' u (proj2 (Hin u) (or_intror Hu)) Hl) as Hn.
      unfold fire. rewrite longPressTimeout_run_callback. exact Hn. }
    exact H'.
Qed.

Lemma named_at_most_one c :
  handles_fresh c -> named c -> length (pendingLongPress c) <= 1.
Proof.
  intros [Hnd _] Hn.
  pose proof (NoDup_map_filter timer_id
                (fun t => is_longPress (timer_cb t)) (timers c) Hnd) as Hnd'.
  assert (Hall : forall t, In t (pendingLongPress c) ->
                           _longPressTimeout c = Some (timer_id t)).
  { intros t Hin. apply List.filter_In in Hin. apply Hn; tauto. }
  unfold pendingLongPress in *.
  destruct (List.filter _ (timers c)) as [|a [|b l]]; simpl; try lia.
  exfalso.
  pose proof (Hall a (or_introl eq_refl)) as Ha.
  pose proof (Hall b (or_intror (or_introl eq_refl))) as Hb.
  rewrite Ha in Hb. inversion Hb as [Hab].
  simpl in Hnd'. inversion Hnd' as [|x xs Hnotin _]; subst.
  apply Hnotin. left. symmetry. exact Hab.
Qed.

Lemma disciplined_trace delay es c :
  handles_fresh c -> named c -> disciplined delay es c = true ->
  Forall (fun c' => length (pendingLongPress c') <= 1) (trace delay es c).
Proof.
  revert c. induction es as [|e es IH]; intros c Hf Hn Hd; [constructor|].
  simpl in Hd. apply andb_prop in Hd. destruct Hd as [He Hd].
  assert (Hn' : named (step delay c e)).
  { apply named_step; [|exact Hn]. intros Hts. rewrite Hts in He.
    destruct (pendingLongPress c); [reflexivity | discriminate He]. }
  pose proof (fresh_step delay c e Hf) as Hf'.
  simpl. constructor; [apply named_at_most_one; assumption|].
  apply IH; assumption.
Qed.

(** X17. When every touch start arrives while no show/hide timer is
    pending, at most one show/hide timer is pending in every state of the
    run: a touch end replaces the pending one, a touch cancel and the
    unmount remove it. *)
Theorem X17_one_timer_when_disciplined delay win es :
  disciplined delay es (initial win) = true ->
  Forall (fun c => length (pendingLongPress c) <= 1)
         (trace delay es (initial win)).
Proof.
  intros Hd. apply disciplined_trace; [apply fresh_initial | | exact Hd].
  apply idle_named. reflexivity.
Qed.

Lemma X17_one_timer_when_disciplined_witness :
  Forall (fun c => length (pendingLongPress c) <= 1)
    (trace 500 [RefSet (Some (mkChildRef (Some 7))); DidMount; TouchStart;
                Elapse 600; TouchEndCapture; Elapse 600; TouchStart; Elapse 100;
                TouchEndCapture; Elapse 100; TouchCancel] (initial win0)).
Proof.
  apply (X17_one_timer_when_disciplined 500 win0
           [RefSet (Some (mkChildRef (Some 7))); DidMount; TouchStart;
            Elapse 600; TouchEndCapture; Elapse 600; TouchStart; Elapse 100;
            TouchEndCapture; Elapse 100; TouchCancel]).
  reflexivity.
Defined.

Lemma X16_clearTimeouts_cancels_at_most_one_witness :
  let c := run 500 [TouchStart] (mountedOn 500 win0) in
  In (mkTimer 1 500 (MeasureChildren 7)) (timers (_clearTimeouts c)).
Proof.
  cbv zeta.
  apply (proj2 (proj2 (X16_clearTimeouts_cancels_at_most_one 500 win0
                         [RefSet (Some (mkChildRef (Some 7))); DidMount;
                          TouchStart]))).
  - left. reflexivity.
  - reflexivity.
  - discriminate.
Defined.

(** ** What [render] hands to the child and to the overlay *)

Lemma rest_of_other p k :
  ~ In k withheld -> rest_of p !! k = attrs p !! k.
Proof.
  intros H. unfold rest_of, withheld in *. simpl in H.
  rewrite !lookup_delete_ne by (intros <-; apply H; auto 10). reflexivity.
Qed.

Lemma rest_of_withheld p k : In k withheld -> rest_of p !! k = None.
Proof.
  unfold rest_of, withheld. simpl.
  intros [<-|[<-|[<-|[<-|[]]]]];
    repeat first [ apply lookup_delete_eq | rewrite lookup_delete_ne by done ].
Qed.

Lemma cloned_lookup child rest k :
  k <> "ref" -> k <> "key" -> k <> "onLongPress" ->
  el_props (cloneElement child (cloneConfig rest)) !! k
  = match rest !! k with
    | Some v => Some v
    | None => el_props child !! k
    end.
Proof.
  intros H1 H2 H3. unfold cloneElement, cloneConfig, spread. simpl.
  rewrite lookup_union, !lookup_delete_ne, lookup_insert_ne by congruence.
  rewrite lookup_union, lookup_insert_ne, lookup_empty by congruence.
  destruct (rest !! k); destruct (el_props child !! k); reflexivity.
Qed.

(** X18. With a single child and under any name other than [children],
    [onLongPress], [title], [wrapperStyle], [style], [theme], [ref] and
    [key]: what the parent passes to the wrapper reaches the child and
    replaces the child's own; where the parent passes nothing the wrapper's
    default does the same, and there is one for [delayLongPress] (500);
    only with neither does the child keep what it had. *)
Theorem X18_rest_forwarded sb passed st win child k :
  ~ In k ("children" :: "onLongPress" :: withheld ++ reserved) ->
  exists r,
    render sb (createProps [child] passed) st win = Some r /\
    el_props (r_child r) !! k
    = match passed !! k with
      | Some v => Some v
      | None =>
          match defaultProps !! k with
          | Some d => Some d
          | None => el_props child !! k
          end
      end.
Proof.
  intros Hk. unfold render, createProps. cbn [children Children_only].
  eexists. split; [reflexivity|]. cbn [r_child].
  assert (Hc : k <> "children") by (intros ->; apply Hk; left; reflexivity).
  assert (Ho : k <> "onLongPress")
    by (intros ->; apply Hk; right; left; reflexivity).
  assert (Hw : ~ In k withheld)
    by (intros H; apply Hk; right; right; apply in_or_app; left; exact H).
  assert (Hr : ~ In k reserved)
    by (intros H; apply Hk; right; right; apply in_or_app; right; exact H).
  unfold reserved in Hr. simpl in Hr.
  rewrite cloned_lookup by (try exact Ho; intros ->; apply Hr; auto).
  rewrite (rest_of_other _ k Hw). cbn [attrs].
  rewrite lookup_delete_ne by congruence. rewrite lookup_union.
  destruct (passed !! k); destruct (defaultProps !! k); reflexivity.
Qed.

Lemma X18_rest_forwarded_witness :
  let child := {| el_type := "Button";
                  el_props := {[ "delayLongPress" := PNumber 200 ]};
                  el_ref := None; el_key := None |} in
  option_map (fun r => el_props (r_child r) !! "delayLongPress")
    (render 24 (createProps [child] {[ "title" := PString "Search" ]})
       initialState win0)
  = Some (Some (PNumber 500)).
Proof.
  cbv zeta.
  destruct (X18_rest_forwarded 24 {[ "title" := PString "Search" ]}
              initialState win0
              {| el_type := "Button";
                 el_props := {[ "delayLongPress" := PNumber 200 ]};
                 el_ref := None; el_key := None |} "delayLongPress")
    as (r & Hr & Hk).
  - vm_compute. intros H. repeat destruct H as [H|H]; try discriminate H; exact H.
  - rewrite Hr. simpl. rewrite Hk. reflexivity.
Defined.

(** X19. The wrapper keeps [title], [wrapperStyle], [style] and [theme]
    to itself: under these names the child has, after cloning, exactly what
    it had before. *)
Theorem X19_withheld_not_forwarded sb p st win child k :
  children p = [child] -> In k withheld ->
  exists r,
    render sb p st win = Some r /\
    el_props (r_child r) !! k = el_props child !! k.
Proof.
  intros Hc Hk. unfold render. rewrite Hc. cbn [Children_only].
  eexists. split; [reflexivity|]. cbn [r_child].
  rewrite cloned_lookup.
  - rewrite (rest_of_withheld p k Hk). reflexivity.
  - intros ->. unfold withheld in Hk. simpl in Hk.
    repeat destruct Hk as [Hk|Hk]; try discriminate Hk; exact Hk.
  - intros ->. unfold withheld in Hk. simpl in Hk.
    repeat destruct Hk as [Hk|Hk]; try discriminate Hk; exact Hk.
  - intros ->. unfold withheld in Hk. simpl in Hk.
    repeat destruct Hk as [Hk|Hk]; try discriminate Hk; exact Hk.
Qed.

Lemma X19_withheld_not_forwarded_witness :
  option_map (fun r => el_props (r_child r) !! "title")
    (render 24 (mkProps [button] {[ "title" := PString "Search" ]})
       initialState win0)
  = Some None.
Proof.
  destruct (X19_withheld_not_forwarded 24
              (mkProps [button] {[ "title" := PString "Search" ]})
              initialState win0 button "title" eq_refl)
    as (r & Hr & Hk).
  - left. reflexivity.
  - rewrite Hr. simpl. rewrite Hk. reflexivity.
Defined.



(** X21. In every state reached from the initial one, [render] with one
    child shows no overlay while the tooltip is hidden; while it is
    visible the overlay sits at the computed position, fully transparent
    (opacity 0) until the tooltip has been measured and at opacity 0.9
    from then on. *)
Theorem X21_overlay delay win es sb p child :
  children p = [child] ->
  let c := run delay es (initial win) in
  exists r,
    render sb p (state c) (window c) = Some r /\
    (visible c = false -> r_overlay r = None) /\
    (visible c = true ->
     r_overlay r
     = Some {| ov_opacity := if measured c then 0.9%float else 0%float;
               ov_left := _getTooltipXPosition (state c) (window c);
               ov_top := _getTooltipYPosition sb (state c) (window c) |}).
Proof.
  intros Hc c. unfold render. rewrite Hc. simpl.
  eexists. split; [reflexivity|]. simpl. unfold visible.
  split; intros Hv; rewrite Hv; [reflexivity|].
  assert (H : layout_consistent (state c)).
  { apply layout_consistent_run. unfold layout_consistent. simpl.
    split; reflexivity. }
  unfold layout_consistent, measured in *.
  destruct (tooltipMeasured (state c)); [rewrite H | rewrite (proj1 H)];
    reflexivity.
Qed.

Lemma X21_overlay_witness :
  let c := run 500 [RefSet (Some (mkChildRef (Some 7))); DidMount; TouchStart;
                    Elapse 600] (initial win0) in
  option_map r_overlay
    (render 24 (mkProps [button] {[ "title" := PString "Search" ]})
       (state c) (window c))
  = Some (Some {| ov_opacity := 0%float;
                  ov_left := _getTooltipXPosition (state c) (window c);
                  ov_top := _getTooltipYPosition 24 (state c) (window c) |}).
Proof.
  cbv zeta.
  destruct (X21_overlay 500 win0
              [RefSet (Some (mkChildRef (Some 7))); DidMount; TouchStart;
               Elapse 600] 24
              (mkProps [button] {[ "title" := PString "Search" ]}) button eq_refl)
    as (r & Hr & _ & Hv).
  rewrite Hr. simpl. rewrite Hv by reflexivity. reflexivity.
Defined.

(** ** Before anything has been measured *)

Lemma rectangles_run delay es c :
  forallb (fun e => negb (is_Layout e) && negb (is_Measured e)) es = true ->
  childrenLayout (state (run delay es c)) = childrenLayout (state c) /\
  tooltipLayout (state (run delay es c)) = tooltipLayout (state c).
Proof.
  revert c. induction es as [|e es IH]; intros c H; [split; reflexivity|].
  simpl in H. apply andb_prop in H. destruct H as [He Hes].
  apply andb_prop in He. destruct He as [HL HM].
  apply negb_true_iff in HL. apply negb_true_iff in HM.
  destruct (IH (step delay c e) Hes) as [H1 H2].
  change (run delay (e :: es) c) with (run delay es (step delay c e)).
  rewrite H1, H2. split.
  - apply childrenLayout_step. exact HM.
  - pose proof (layout_part_step delay c e HL) as Hp.
    unfold layout_part in Hp. inversion Hp. reflexivity.
Qed.

Local Open Scope float_scope.

Lemma zero_rectangles_position sb st win :
  childrenLayout st = mkChildrenLayout 0 0 0 0 ->
  tooltipLayout st = mkTooltipLayout 0 0 ->
  (0 <=? win_width win) = true -> (sb <=? win_height win) = true ->
  _getTooltipXPosition st win = 0 /\ _getTooltipYPosition sb st win = 0.
Proof.
  intros Hc Ht Hw Hh. split.
  - rewrite x_center.
    + unfold centerDistanceFromChildren. rewrite Hc, Ht. reflexivity.
    + unfold _overflowRight, centerDistanceFromChildren. rewrite Hc, Ht.
      exact (leb_not_gt _ _ Hw).
    + unfold centerDistanceFromChildren. rewrite Hc, Ht. reflexivity.
  - rewrite y_below.
    + rewrite Hc, Ht. reflexivity.
    + unfold _overflowBottom. rewrite Hc, Ht. cbn [cl_y cl_height tl_height].
      change (0 + 0 + 0) with 0. rewrite zero_add_gt.
      exact (leb_not_gt _ _ Hh).
Qed.

(** X22. Until a layout event or a measurement answer arrives both
    rectangles are zero, and the position computed for the tooltip is
    (0, 0) in any window of non-negative width and of a height no less
    than the status-bar offset. *)
Theorem X22_position_before_measurement delay win es sb w :
  forallb (fun e => negb (is_Layout e) && negb (is_Measured e)) es = true ->
  (0 <=? win_width w) = true -> (sb <=? win_height w) = true ->
  let s := state (run delay es (initial win)) in
  _getTooltipXPosition s w = 0 /\ _getTooltipYPosition sb s w = 0.
Proof.
  intros Hes Hw Hh s.
  destruct (rectangles_run delay es (initial win) Hes) as [Hc Ht].
  apply zero_rectangles_position; assumption.
Qed.

Lemma X22_position_before_measurement_witness :
  let s := state (run 500%nat [RefSet (Some (mkChildRef (Some 7%nat))); DidMount;
                           TouchStart; Elapse 600%nat] (initial win0)) in
  _getTooltipXPosition s win0 = 0 /\ _getTooltipYPosition 24 s win0 = 0.
Proof.
  cbv zeta.
  apply (X22_position_before_measurement 500%nat win0
           [RefSet (Some (mkChildRef (Some 7%nat))); DidMount; TouchStart;
            Elapse 600%nat]
           24 win0).
  - reflexivity.
  - reflexivity.
  - reflexivity.
Defined.

Local Close Scope float_scope.
